(** * Agensense (Agent.py): a shallow embedding and its properties

    The program is a thin client over a remote voice-agent service.  The
    functions of [Agent.py] are embedded as computations in a state-and-
    exception monad over a [World] that holds the two pieces of session
    state of the module (the global [conversation] and the flag
    [st.session_state.agent_running]) together with what the functions
    can change around them: the calls made on the SDK, the HTTP requests
    issued, the text written to the page and the files of the working
    directory.  Everything the program receives from outside (HTTP
    responses, the outcome of SDK calls, the audio decoder) is collected
    in an [Env]. *)

From Stdlib Require Import String Ascii List ZArith Bool Lia DecimalString.
Import ListNotations.
Open Scope string_scope.

#[local] Set Warnings "-register-all".

(** ** Python strings

    A [str] is modelled by a [string] whose characters are the code
    points below 256; [isspace] and [lower] are Python's on that range. *)
Module PyStr.

Definition isspace (c : ascii) : bool :=
  let n := nat_of_ascii c in
  (((9 <=? n) && (n <=? 13)) || ((28 <=? n) && (n <=? 32))
   || (n =? 133) || (n =? 160))%nat.

Fixpoint lstrip (s : string) : string :=
  match s with
  | EmptyString => EmptyString
  | String c s' => if isspace c then lstrip s' else s
  end.

Fixpoint rstrip (s : string) : string :=
  match s with
  | EmptyString => EmptyString
  | String c s' =>
      match rstrip s' with
      | EmptyString => if isspace c then EmptyString else String c EmptyString
      | r => String c r
      end
  end.

(** [s.strip()] *)
Definition strip (s : string) : string := rstrip (lstrip s).

Definition lower_char (c : ascii) : ascii :=
  let n := nat_of_ascii c in
  if (((65 <=? n) && (n <=? 90))
      || ((192 <=? n) && (n <=? 222) && negb (n =? 215)))%nat
  then ascii_of_nat (n + 32) else c.

(** [s.lower()] *)
Fixpoint lower (s : string) : string :=
  match s with
  | EmptyString => EmptyString
  | String c s' => String (lower_char c) (lower s')
  end.

(** [sub in s] for two strings *)
Fixpoint contains (sub s : string) : bool :=
  String.prefix sub s ||
  match s with
  | EmptyString => false
  | String _ s' => contains sub s'
  end.

End PyStr.

(** ** Values decoded from a JSON body

    What [response.json()] returns.  A [JDict] keeps the entries of the
    Python dict in insertion order; its keys are distinct, so the first
    match of [dict_get] is the only one. *)
Inductive json : Type :=
| JNull
| JBool (b : bool)
| JInt (n : Z)
| JFloat (bits : Z)
| JStr (s : string)
| JList (items : list json)
| JDict (entries : list (string * json)).

Fixpoint dict_get (k : string) (d : list (string * json)) : option json :=
  match d with
  | [] => None
  | (k', v) :: d' => if String.eqb k k' then Some v else dict_get k d'
  end.

Definition dict_has (k : string) (d : list (string * json)) : bool :=
  match dict_get k d with Some _ => true | None => false end.

(** ** Exceptions and results *)
Inductive exn : Type :=
| KeyError (key : string)
| TypeError
| JSONDecodeError
| RequestException (what : string)
| SdkError (what : string)
| CouldntDecodeError
| OSError (what : string)
| PathValueError (what : string).

Inductive result (A : Type) : Type :=
| Ok (a : A)
| Raise (e : exn).
Arguments Ok {A} a.
Arguments Raise {A} e.

Definition returns {A} (r : result A) : bool :=
  match r with Ok _ => true | Raise _ => false end.

(** ** The operations of Python on decoded values that the program uses *)
Module Py.

Definition is_dict (v : json) : bool :=
  match v with JDict _ => true | _ => false end.

Definition is_str_eq (k : string) (v : json) : bool :=
  match v with JStr s => String.eqb s k | _ => false end.

(** [k in v] for a string [k]: key membership on a dict, element
    membership on a list, substring test on a string; the other values
    are not containers. *)
Definition contains (k : string) (v : json) : result bool :=
  match v with
  | JDict d => Ok (dict_has k d)
  | JList l => Ok (existsb (is_str_eq k) l)
  | JStr s => Ok (PyStr.contains k s)
  | _ => Raise TypeError
  end.

(** [v[k]] for a string [k]: only a dict can be indexed by a string. *)
Definition getitem (v : json) (k : string) : result json :=
  match v with
  | JDict d =>
      match dict_get k d with
      | Some x => Ok x
      | None => Raise (KeyError k)
      end
  | _ => Raise TypeError
  end.

Fixpoint chars (s : string) : list json :=
  match s with
  | EmptyString => []
  | String c s' => JStr (String c EmptyString) :: chars s'
  end.

(** The elements a [for] loop over [v] visits. *)
Definition iter (v : json) : result (list json) :=
  match v with
  | JList l => Ok l
  | JDict d => Ok (map (fun kv => JStr (fst kv)) d)
  | JStr s => Ok (chars s)
  | _ => Raise TypeError
  end.

(** [[f x for x in xs]]: left to right, the first exception ends it. *)
Fixpoint comprehension {A B} (f : A -> result B) (xs : list A)
  : result (list B) :=
  match xs with
  | [] => Ok []
  | x :: xs' =>
      match f x with
      | Raise e => Raise e
      | Ok y =>
          match comprehension f xs' with
          | Raise e => Raise e
          | Ok ys => Ok (y :: ys)
          end
      end
  end.

End Py.

(** ** The outside world *)

Inductive Method : Type := GET | DELETE.

Record Request : Type := mkRequest {
  method : Method;
  url : string;
  headers : list (string * string);
  params : list (string * string)
}.

(** A [requests.Response]: [json] is what [response.json()] returns,
    [None] when the body is not JSON and the call raises. *)
Record Response : Type := mkResponse {
  status_code : Z;
  content : list Byte.byte;
  json_body : option json
}.

(** A [Conversation] object is known by its identity. *)
Definition Handle := nat.

Inductive SdkEvent : Type :=
| NewConversation (h : Handle) (agent_id : string) (requires_auth : bool)
| StartSession (h : Handle)
| StopSession (h : Handle).

(** Decoded audio, as [pydub.AudioSegment] holds it: raw sample data. *)
Definition AudioSegment := list Byte.byte.

(** What the program is given.  The remote service and the SDK may
    answer differently from one call to the next, so both see the
    history of the calls made so far. *)
Record Env : Type := mkEnv {
  API_KEY : string;
  AGENT_ID : string;
  (** [requests.get] / [requests.delete]: a response, or an exception
      of the transport *)
  send : list Request -> Request -> result Response;
  (** the exception an SDK call raises, if any *)
  sdk_raises : list SdkEvent -> SdkEvent -> option exn;
  (** [AudioSegment.from_mp3] *)
  from_mp3 : list Byte.byte -> result AudioSegment;
  (** the bytes [export(..., format="wav")] writes *)
  to_wav : AudioSegment -> list Byte.byte;
  (** the exception that opening a path for writing raises, if any, in
      the working directory as it is: [FileNotFoundError] and the other
      [OSError]s, [ValueError] on a name the system cannot take *)
  export_raises : list (string * list Byte.byte) -> string -> option exn;
  (** the file a name denotes: two names with the same [realpath] are
      one file *)
  realpath : string -> string
}.

(** ** The state the program runs in *)
Record World : Type := mkWorld {
  (** the module global [conversation]; [None] is Python's [None] *)
  conversation : option Handle;
  (** [st.session_state.agent_running], which [main] sets to [False]
      before anything reads it *)
  agent_running : bool;
  (** identity of the next object the SDK constructs *)
  next_handle : Handle;
  (** the calls made on the SDK, oldest first *)
  sdk_log : list SdkEvent;
  (** the HTTP requests issued, oldest first *)
  http_log : list Request;
  (** what [st.write] has put on the page, oldest first *)
  page : list string;
  (** the files written in the working directory, last written first,
      each under the name it was opened with *)
  files : list (string * list Byte.byte)
}.

(** The session state of the controller: the handle and the flag. *)
Definition session (w : World) : option Handle * bool :=
  (conversation w, agent_running w).

Definition initial_world (fs : list (string * list Byte.byte)) : World :=
  mkWorld None false 0 [] [] [] fs.

(** ** The monad: state, with exceptions that keep the state *)
Definition M (A : Type) : Type := World -> result A * World.

Definition ret {A} (a : A) : M A := fun w => (Ok a, w).

Definition raise {A} (e : exn) : M A := fun w => (Raise e, w).

Definition bind {A B} (m : M A) (k : A -> M B) : M B :=
  fun w =>
    match m w with
    | (Ok a, w') => k a w'
    | (Raise e, w') => (Raise e, w')
    end.

Definition lift {A} (r : result A) : M A := fun w => (r, w).

Declare Scope py_scope.
Delimit Scope py_scope with py.
Notation "x <- m ;; k" := (bind m (fun x => k))
  (at level 61, m at next level, right associativity) : py_scope.
Notation "m ;; k" := (bind m (fun _ => k))
  (at level 61, right associativity) : py_scope.
Open Scope py_scope.

(** The world a computation leaves, returned or raised. *)
Definition exec {A} (m : M A) (w : World) : World := snd (m w).

(** What it returns or raises. *)
Definition outcome {A} (m : M A) (w : World) : result A := fst (m w).

(** *** Assignments *)
Definition set_conversation (c : option Handle) : M unit :=
  fun w => (Ok tt, mkWorld c (agent_running w) (next_handle w) (sdk_log w)
                           (http_log w) (page w) (files w)).

Definition set_agent_running (b : bool) : M unit :=
  fun w => (Ok tt, mkWorld (conversation w) b (next_handle w) (sdk_log w)
                           (http_log w) (page w) (files w)).

(** [st.write(text)] *)
Definition st_write (text : string) : M unit :=
  fun w => (Ok tt, mkWorld (conversation w) (agent_running w) (next_handle w)
                           (sdk_log w) (http_log w) (page w ++ [text])
                           (files w)).

(** A file that has been opened under the name [path] is written. *)
Definition write_file (path : string) (data : list Byte.byte) : M unit :=
  fun w => (Ok tt, mkWorld (conversation w) (agent_running w) (next_handle w)
                           (sdk_log w) (http_log w) (page w)
                           ((path, data) :: files w)).

(** What the file that [path] denotes holds: the last write to a name
    of that file.  [resolve] is the [realpath] of the file system. *)
Fixpoint read_file (resolve : string -> string) (path : string)
                   (fs : list (string * list Byte.byte))
  : option (list Byte.byte) :=
  match fs with
  | [] => None
  | (p, d) :: fs' =>
      if String.eqb (resolve path) (resolve p) then Some d
      else read_file resolve path fs'
  end.

(** ** The program *)
Section Agent.

Variable env : Env.

(** *** Calls that leave the program *)

(** A call on the SDK: it is made, and then returns or raises. *)
Definition sdk_call (ev : SdkEvent) : M unit :=
  fun w =>
    let w' := mkWorld (conversation w) (agent_running w) (next_handle w)
                      (sdk_log w ++ [ev]) (http_log w) (page w) (files w) in
    match sdk_raises env (sdk_log w) ev with
    | Some e => (Raise e, w')
    | None => (Ok tt, w')
    end.

(** The constructor call
    [Conversation(client, AGENT_ID, requires_auth=bool(API_KEY), ...)]
    that makes the object [h]. *)
Definition construction (h : Handle) : SdkEvent :=
  NewConversation h (AGENT_ID env) (negb (String.eqb (API_KEY env) "")).

(** Constructing a [Conversation]: a new object, with the three
    callbacks registered on it. *)
Definition new_Conversation : M Handle :=
  fun w =>
    let h := next_handle w in
    let w' := mkWorld (conversation w) (agent_running w) (S h)
                      (sdk_log w) (http_log w) (page w) (files w) in
    match sdk_call (construction h) w' with
    | (Ok _, w'') => (Ok h, w'')
    | (Raise e, w'') => (Raise e, w'')
    end.

(** [requests.get] and [requests.delete] *)
Definition requests_send (req : Request) : M Response :=
  fun w =>
    (send env (http_log w) req,
     mkWorld (conversation w) (agent_running w) (next_handle w)
             (sdk_log w) (http_log w ++ [req]) (page w) (files w)).

(** [response.json()] *)
Definition response_json (r : Response) : M json :=
  match json_body r with
  | Some v => ret v
  | None => raise JSONDecodeError
  end.

Definition auth_headers : list (string * string) :=
  [("xi-api-key", API_KEY env)].

(** *** Voice session *)

Definition stopped_message : string := "**Agent has been stopped**".

(** [stop_conversation]: guarded by the global, not by the flag. *)
Definition stop_conversation : M unit :=
  fun w =>
    match conversation w with
    | Some h =>
        (sdk_call (StopSession h) ;;
         set_agent_running false ;;
         st_write stopped_message) w
    | None => ret tt w
    end.

(** [start_conversation]: the global is bound to the new object before
    its session is started; the flag is set once the session is. *)
Definition start_conversation : M unit :=
  h <- new_Conversation ;;
  set_conversation (Some h) ;;
  sdk_call (StartSession h) ;;
  set_agent_running true.

(** [handle_user_transcript], the callback the SDK calls with each
    utterance it has recognised. *)
Definition handle_user_transcript (transcript : string) : M unit :=
  st_write ("**User:** " ++ transcript) ;;
  if String.eqb (PyStr.lower (PyStr.strip transcript)) "stop"
  then stop_conversation
  else ret tt.

(** *** Conversations of the agent *)

Definition conversations_url : string :=
  "https://api.elevenlabs.io/v1/convai/conversations".

Definition conversations_request : Request :=
  mkRequest GET conversations_url auth_headers [("agent_id", AGENT_ID env)].

(** [get_conversations].  The loop variable of the comprehension is
    local to it: the global [conversation] is not assigned. *)
Definition get_conversations : M (list json) :=
  response <- requests_send conversations_request ;;
  if (status_code response =? 200)%Z then
    data <- response_json response ;;
    has <- (if Py.is_dict data
            then lift (Py.contains "conversations" data)
            else ret false) ;;
    if has : bool then
      convs <- lift (Py.getitem data "conversations") ;;
      items <- lift (Py.iter convs) ;;
      lift (Py.comprehension (fun c => Py.getitem c "conversation_id") items)
    else ret []
  else ret [].

(** *** Audio of a conversation *)

Definition audio_url (conversation_id : string) : string :=
  conversations_url ++ "/" ++ conversation_id ++ "/audio".

Definition audio_request (conversation_id : string) : Request :=
  mkRequest GET (audio_url conversation_id) auth_headers [].

Definition audio_file_path (conversation_id : string) : string :=
  conversation_id ++ "_audio.wav".

(** [audio.export(path, format="wav")]: the file is opened for
    writing, which raises when the working directory cannot take the
    name, and then written. *)
Definition export (audio : AudioSegment) (path : string) : M unit :=
  fun w =>
    match export_raises env (files w) path with
    | Some e => (Raise e, w)
    | None => write_file path (to_wav env audio) w
    end.

(** [get_audio]: [None] is Python's [None]. *)
Definition get_audio (conversation_id : string) : M (option string) :=
  response <- requests_send (audio_request conversation_id) ;;
  if (status_code response =? 200)%Z then
    audio <- lift (from_mp3 env (content response)) ;;
    export audio (audio_file_path conversation_id) ;;
    ret (Some (audio_file_path conversation_id))
  else ret None.

(** *** Deleting a conversation, and its transcript *)

Definition conversation_url (conversation_id : string) : string :=
  conversations_url ++ "/" ++ conversation_id.

Definition delete_request (conversation_id : string) : Request :=
  mkRequest DELETE (conversation_url conversation_id) auth_headers [].

Definition deleted_message : string := "Conversation deleted successfully.".
Definition not_deleted_message : string := "Failed to delete the conversation.".

(** [delete_conversation] *)
Definition delete_conversation (conversation_id : string) : M string :=
  response <- requests_send (delete_request conversation_id) ;;
  if (status_code response =? 200)%Z
  then ret deleted_message
  else ret not_deleted_message.

Definition messages_request (conversation_id : string) : Request :=
  mkRequest GET (conversation_url conversation_id) auth_headers [].

Definition no_messages : string := "No messages found in this conversation.".
Definition fetch_failed : string := "Failed to fetch messages.".

(** [get_messages]: here [in] is applied to whatever was decoded. *)
Definition get_messages (conversation_id : string) : M (list json) :=
  response <- requests_send (messages_request conversation_id) ;;
  if (status_code response =? 200)%Z then
    data <- response_json response ;;
    has <- lift (Py.contains "transcript" data) ;;
    if has : bool then
      entries <- lift (Py.getitem data "transcript") ;;
      items <- lift (Py.iter entries) ;;
      lift (Py.comprehension (fun m => Py.getitem m "message") items)
    else ret [JStr no_messages]
  else ret [JStr fetch_failed].

(** *** The start/stop entry of the menu

    The branch of [main] for the service "Start the Agensense";
    [button] tells which buttons of the page were pressed. *)
Definition main_start_service (button : string -> bool) : M unit :=
  fun w =>
    if negb (agent_running w) then
      (if button "Start Agensense"
       then start_conversation ;; st_write "**Agent has been started**"
       else ret tt) w
    else
      (st_write "**Agent is already running**" ;;
       if button "Stop Agensense" then stop_conversation else ret tt) w.

(** *** Sequences of calls

    The functions of the module, called one after the other: start,
    stop, the callback on an utterance, the start/stop entry of the
    menu and the four clients. *)
Inductive Op : Type :=
| OpStart
| OpStop
| OpUtterance (transcript : string)
| OpMenu (button : string -> bool)
| OpList
| OpMessages (conversation_id : string)
| OpAudio (conversation_id : string)
| OpDelete (conversation_id : string).

Definition run_op (o : Op) (w : World) : World :=
  match o with
  | OpStart => exec start_conversation w
  | OpStop => exec stop_conversation w
  | OpUtterance t => exec (handle_user_transcript t) w
  | OpMenu b => exec (main_start_service b) w
  | OpList => exec get_conversations w
  | OpMessages i => exec (get_messages i) w
  | OpAudio i => exec (get_audio i) w
  | OpDelete i => exec (delete_conversation i) w
  end.

Definition run_ops (os : list Op) (w : World) : World :=
  fold_left (fun w o => run_op o w) os w.

(** The top level of the module, lines 11 to 25, which runs again each
    time the script is executed: the credentials are read as before and
    the global is bound to [None].  The flag lives in
    [st.session_state], which is kept from one execution to the next. *)
Definition module_top_level : M unit := set_conversation None.

End Agent.

(** ** The shapes of the bodies the remote service documents *)

(** A conversations entry that carries [conversation_id] with value [i]. *)
Definition carries_id (entry i : json) : Prop :=
  exists fields, entry = JDict fields /\ dict_get "conversation_id" fields = Some i.

(** A transcript entry that carries [message] with value [m]. *)
Definition carries_message (entry m : json) : Prop :=
  exists fields, entry = JDict fields /\ dict_get "message" fields = Some m.

(** A body [{"conversations": [...]}] whose entries carry the ids
    [ids], in this order. *)
Definition registry_body (v : json) (ids : list json) : Prop :=
  exists fields entries,
    v = JDict fields /\
    dict_get "conversations" fields = Some (JList entries) /\
    Forall2 carries_id entries ids.

(** A response whose body has every field the registry client reads. *)
Definition well_formed_registry (r : Response) : Prop :=
  exists v ids, json_body r = Some v /\ registry_body v ids.

(** A body [{"transcript": [...]}] whose entries carry the messages
    [msgs], in this order. *)
Definition transcript_body (v : json) (msgs : list json) : Prop :=
  exists fields entries,
    v = JDict fields /\
    dict_get "transcript" fields = Some (JList entries) /\
    Forall2 carries_message entries msgs.

(** An HTTP status other than the one the clients take for success. *)
Definition non_success (r : Response) : Prop := status_code r <> 200%Z.

(** The controller is in state Running when the flag is set, Idle when
    it is not. *)
Definition Running (w : World) : Prop := agent_running w = true.
Definition Idle (w : World) : Prop := agent_running w = false.

(** What every function of the module keeps: a set flag comes with a
    bound global, and the global is bound to an object that exists. *)
Definition controller_inv (w : World) : Prop :=
  (agent_running w = true -> conversation w <> None) /\
  (forall h, conversation w = Some h -> h < next_handle w).

(** The global is bound, if at all, to an object that has been
    constructed. *)
Definition allocated (w : World) : Prop :=
  forall h, conversation w = Some h -> h < next_handle w.

(** The fields of the world that belong to the voice session and the
    page: the clients of the remote service leave them alone. *)
Definition same_controller (w w' : World) : Prop :=
  conversation w' = conversation w /\
  agent_running w' = agent_running w /\
  next_handle w' = next_handle w /\
  sdk_log w' = sdk_log w /\
  page w' = page w.

(** A computation that leaves them alone, however it ends. *)
Definition keeps_controller {A} (m : M A) : Prop :=
  forall w, same_controller w (exec m w).

(** An operation that can bind the global: start, or the menu with its
    start button pressed. *)
Definition may_start (o : Op) : bool :=
  match o with
  | OpStart => true
  | OpMenu button => button "Start Agensense"
  | _ => false
  end.

(** ** Concrete environments and states *)

(** *** A decoder and a working directory to run the examples in *)

(** Stands for the bytes of a recording, and for its samples. *)
Definition recording : list Byte.byte := [Byte.xff; Byte.xfb; Byte.x90; Byte.x00].
Definition samples : AudioSegment := [Byte.x00; Byte.x01; Byte.x00; Byte.xff].

Fixpoint bytes_eqb (a b : list Byte.byte) : bool :=
  match a, b with
  | [], [] => true
  | x :: a', y :: b' => Byte.eqb x y && bytes_eqb a' b'
  | _, _ => false
  end.

(** A decoder that knows one recording and rejects everything else. *)
Definition decode (bytes : list Byte.byte) : result AudioSegment :=
  if bytes_eqb bytes recording then Ok samples else Raise CouldntDecodeError.

(** The samples behind the four bytes [RIFF]. *)
Definition encode_wav (audio : AudioSegment) : list Byte.byte :=
  ([Byte.x52; Byte.x49; Byte.x46; Byte.x46] ++ audio)%list.

Fixpoint has_char (c : ascii) (s : string) : bool :=
  match s with
  | EmptyString => false
  | String d s' => Ascii.eqb c d || has_char c s'
  end.

(** A name without its leading [./]. *)
Fixpoint strip_dot_slash (path : string) : string :=
  match path with
  | String "." (String "/" rest) => strip_dot_slash rest
  | _ => path
  end.

(** A working directory without subdirectories, on a file system that
    tells upper case from lower case: a name denotes the file of that
    name once its leading [./] are dropped. *)
Definition flat_realpath (path : string) : string := strip_dot_slash path.

(** Opening a name for writing there: no NUL in a name, no directory to
    go down into, at most 255 characters. *)
Definition flat_export_raises (fs : list (string * list Byte.byte))
                              (path : string) : option exn :=
  if has_char "000"%char path
  then Some (PathValueError "embedded null byte")
  else if has_char "/"%char (strip_dot_slash path)
  then Some (OSError "No such file or directory")
  else if (255 <? String.length (strip_dot_slash path))%nat
  then Some (OSError "File name too long")
  else None.

(** The service answers every request with [r]; the SDK never raises. *)
Definition answering (r : Response) : Env :=
  mkEnv "key" "agent" (fun _ _ => Ok r) (fun _ _ => None)
        decode encode_wav flat_export_raises flat_realpath.

Definition not_found : Response := mkResponse 404 [] None.
Definition forbidden : Response := mkResponse 403 [] None.

Definition ok_json (v : json) : Response := mkResponse 200 [] (Some v).

Definition quiet : Env := answering not_found.

(** Running, after one start. *)
Definition started_world : World := run_ops quiet [OpStart] (initial_world []).

(** Idle again, the handle still bound. *)
Definition stopped_world : World :=
  run_ops quiet [OpStart; OpStop] (initial_world []).

(** [{"conversations":[{"conversation_id":"a1"},{"conversation_id":"b2"}]}] *)
Definition two_conversations : json :=
  JDict [("conversations",
          JList [JDict [("conversation_id", JStr "a1")];
                 JDict [("conversation_id", JStr "b2")]])].

(** [{"conversations":[{"conversation_id":"a1"},{}]}]: the second entry
    has no [conversation_id]. *)
Definition entry_without_id : json :=
  JDict [("conversations",
          JList [JDict [("conversation_id", JStr "a1")]; JDict []])].

(** [{"transcript":[{"message":"hi"},{"message":"bye"}]}] *)
Definition hi_bye : json :=
  JDict [("transcript",
          JList [JDict [("message", JStr "hi")];
                 JDict [("message", JStr "bye")]])].

(** [{"transcript":[{"message":"hi"},{"role":"agent"}]}]: the second
    entry has no [message]. *)
Definition entry_without_message : json :=
  JDict [("transcript",
          JList [JDict [("message", JStr "hi")];
                 JDict [("role", JStr "agent")]])].

(** [{"status":"done"}]: no [transcript]. *)
Definition no_transcript : json := JDict [("status", JStr "done")].

(** A 200 whose content is not a recording, and one whose content is. *)
Definition some_mp3 : Response :=
  mkResponse 200 [Byte.x49; Byte.x44; Byte.x33] None.

Definition a_recording : Response := mkResponse 200 recording None.

(** ** More environments, and measures on runs *)

(** The service cannot be reached: the transport raises on every
    request. *)
Definition unreachable : Env :=
  mkEnv "key" "agent"
        (fun _ _ => Raise (RequestException "connection refused"))
        (fun _ _ => None) decode encode_wav flat_export_raises flat_realpath.

(** The service answers [r], and the decoder rejects what it is given. *)
Definition undecodable (r : Response) : Env :=
  mkEnv "key" "agent" (fun _ _ => Ok r) (fun _ _ => None)
        (fun _ => Raise CouldntDecodeError) encode_wav flat_export_raises
        flat_realpath.

(** The SDK constructs the object, and raises when its session is
    started. *)
Definition rejecting : Env :=
  mkEnv "key" "agent" (fun _ _ => Ok not_found)
        (fun _ ev => match ev with
                     | StartSession _ => Some (SdkError "unauthorized")
                     | _ => None
                     end)
        decode encode_wav flat_export_raises flat_realpath.

(** The SDK raises in the constructor. *)
Definition no_audio_device : Env :=
  mkEnv "key" "agent" (fun _ _ => Ok not_found)
        (fun _ ev => match ev with
                     | NewConversation _ _ _ => Some (SdkError "no device")
                     | _ => None
                     end)
        decode encode_wav flat_export_raises flat_realpath.

Definition is_stop_of (h : Handle) (ev : SdkEvent) : bool :=
  match ev with
  | StopSession h' => Nat.eqb h h'
  | _ => false
  end.

(** How many times [stop_session] has been called on the object [h]. *)
Definition stop_calls (h : Handle) (log : list SdkEvent) : nat :=
  List.length (filter (is_stop_of h) log).

(** A computation that leaves the world as it finds it. *)
Definition pure {A} (m : M A) : Prop := forall w, exec m w = w.

(** The world once [req] has been issued, nothing else changed. *)
Definition requested (req : Request) (w : World) : World :=
  mkWorld (conversation w) (agent_running w) (next_handle w) (sdk_log w)
          (http_log w ++ [req]) (page w) (files w).

Fixpoint all_space (s : string) : bool :=
  match s with
  | EmptyString => true
  | String c s' => PyStr.isspace c && all_space s'
  end.

(** A string of one character. *)
Definition char (c : ascii) : string := String c EmptyString.

(** What one operation may do to the session and to the SDK: it makes
    the calls [evs]; it stops no object but the one the global was bound
    to; it leaves the global as it was or binds it to the object it has
    just constructed; objects are numbered upwards. *)
Definition session_step (env : Env) (w w' : World) : Prop :=
  exists evs,
    sdk_log w' = (sdk_log w ++ evs)%list /\
    (forall h, In (StopSession h) evs -> conversation w = Some h) /\
    (conversation w' = conversation w \/
     (conversation w' = Some (next_handle w) /\
      next_handle w' = S (next_handle w) /\
      In (construction env (next_handle w)) evs)) /\
    next_handle w <= next_handle w'.

(** ** Loading the module

    Lines 11 to 22 of [Agent.py]: the two credentials are read from the
    environment, and the import stops with [ValueError] when one of
    them is unset or empty. *)
Inductive Loaded : Type :=
| Credentials (api_key agent_id : string)
| ValueError (message : string).

(** [not v], for what [os.getenv] returns. *)
Definition py_not (v : option string) : bool :=
  match v with
  | None => true
  | Some s => String.eqb s ""
  end.

Definition load_module (getenv : string -> option string) : Loaded :=
  let api_key := getenv "API_KEY" in
  let agent_id := getenv "AGENT_ID" in
  if py_not api_key || py_not agent_id then
    ValueError "API_KEY and AGENT_ID must be set as environment variables."
  else
    match api_key, agent_id with
    | Some k, Some a => Credentials k a
    | _, _ =>
        ValueError "API_KEY and AGENT_ID must be set as environment variables."
    end.

(** ** Python's text of a value

    [str] and [repr] of the values a JSON body decodes to, as an
    f-string and [st.write] use them. *)
Module PyText.

Definition quote : ascii := "'"%char.
Definition dquote : ascii := "034"%char.
Definition backslash : ascii := "\"%char.

Fixpoint mem (c : ascii) (s : string) : bool :=
  match s with
  | EmptyString => false
  | String d s' => Ascii.eqb c d || mem c s'
  end.

Definition hex_digit (n : nat) : ascii :=
  nth n ["0"; "1"; "2"; "3"; "4"; "5"; "6"; "7"; "8"; "9";
         "a"; "b"; "c"; "d"; "e"; "f"]%char "0"%char.

(** [\xNN] *)
Definition hex_escape (c : ascii) : string :=
  let n := nat_of_ascii c in
  String backslash
    (String "x" (String (hex_digit (n / 16)) (String (hex_digit (n mod 16)) ""))).

(** [str.isprintable] on one character below 256. *)
Definition isprintable (c : ascii) : bool :=
  let n := nat_of_ascii c in
  (((32 <=? n) && (n <? 127)) || ((161 <=? n) && negb (n =? 173)))%nat.

Definition repr_char (q : ascii) (c : ascii) : string :=
  if Ascii.eqb c q || Ascii.eqb c backslash then String backslash (String c "")
  else if Ascii.eqb c "009"%char then String backslash "t"
  else if Ascii.eqb c "010"%char then String backslash "n"
  else if Ascii.eqb c "013"%char then String backslash "r"
  else if isprintable c then String c ""
  else hex_escape c.

Fixpoint repr_chars (q : ascii) (s : string) : string :=
  match s with
  | EmptyString => EmptyString
  | String c s' => repr_char q c ++ repr_chars q s'
  end.

(** [repr(s)] of a string: in single quotes, unless it holds a single
    quote and no double quote. *)
Definition repr_str (s : string) : string :=
  let q := if mem quote s && negb (mem dquote s) then dquote else quote in
  String q (repr_chars q s ++ String q "").

(** [", ".join(parts)] *)
Fixpoint join (parts : list string) : string :=
  match parts with
  | [] => ""
  | [x] => x
  | x :: rest => x ++ ", " ++ join rest
  end.

(** [str(n)] of an integer *)
Definition str_int (n : Z) : string :=
  DecimalString.NilZero.string_of_int (Z.to_int n).

Section Text.

(** [repr] of a float, from the bits of the double. *)
Variable float_repr : Z -> string.

Fixpoint repr (v : json) : string :=
  match v with
  | JNull => "None"
  | JBool true => "True"
  | JBool false => "False"
  | JInt n => str_int n
  | JFloat bits => float_repr bits
  | JStr s => repr_str s
  | JList items => "[" ++ join (map repr items) ++ "]"
  | JDict entries =>
      "{" ++ join (map (fun kv : string * json =>
                          let (k, x) := kv in repr_str k ++ ": " ++ repr x)
                       entries)
          ++ "}"
  end.

(** [str(v)], which is what [f"{v}"] puts in the string. *)
Definition str (v : json) : string :=
  match v with
  | JStr s => s
  | _ => repr v
  end.

End Text.

(** The truth value of [v] in an [if].  A float is false when it is a
    zero of either sign. *)
Definition truthy (v : json) : bool :=
  match v with
  | JNull => false
  | JBool b => b
  | JInt n => negb (n =? 0)%Z
  | JFloat bits => negb (bits mod 2 ^ 63 =? 0)%Z
  | JStr s => negb (String.eqb s "")
  | JList items => match items with [] => false | _ => true end
  | JDict entries => match entries with [] => false | _ => true end
  end.

End PyText.

(** ** The page

    What the user did on the page in this run of the script: the index
    chosen in each select box, the buttons pressed, both by label. *)
Record Ui : Type := mkUi {
  chosen : string -> nat;
  pressed : string -> bool
}.

(** [st.selectbox(label, options)]: the chosen option, the first one
    when nothing valid is chosen, [None] when there is no option. *)
Definition selectbox {A} (ui : Ui) (label : string) (options : list A)
  : option A :=
  match nth_error options (chosen ui label) with
  | Some x => Some x
  | None => hd_error options
  end.

(** What the script puts on the page besides the text of [st.write]. *)
Inductive Element : Type :=
| PageConfig (page_title page_icon layout : string)
| Markdown (body : string) (unsafe_allow_html : bool)
| Audio (path format : string)
| ErrorBox (body : string)
| SuccessBox (body : string).

Record Page : Type := mkPage {
  world : World;
  (** the elements rendered, oldest first; the text written with
      [st.write] is in [page] of the world *)
  elements : list Element
}.

(** Computations of [main]: those of [M], over a page. *)
Definition MP (A : Type) : Type := Page -> result A * Page.

Definition retP {A} (a : A) : MP A := fun p => (Ok a, p).

Definition bindP {A B} (m : MP A) (k : A -> MP B) : MP B :=
  fun p =>
    match m p with
    | (Ok a, p') => k a p'
    | (Raise e, p') => (Raise e, p')
    end.

Definition in_world {A} (m : M A) : MP A :=
  fun p =>
    match m (world p) with
    | (r, w') => (r, mkPage w' (elements p))
    end.

Definition render (e : Element) : MP unit :=
  fun p => (Ok tt, mkPage (world p) (elements p ++ [e])).

Declare Scope page_scope.
Delimit Scope page_scope with page.
Notation "x <- m ;; k" := (bindP m (fun x => k))
  (at level 61, m at next level, right associativity) : page_scope.
Notation "m ;; k" := (bindP m (fun _ => k))
  (at level 61, right associativity) : page_scope.

Definition execP {A} (m : MP A) (p : Page) : Page := snd (m p).
Definition outcomeP {A} (m : MP A) (p : Page) : result A := fst (m p).

(** [for x in xs: body(x)] *)
Fixpoint for_each {A} (body : A -> M unit) (xs : list A) : M unit :=
  match xs with
  | [] => ret tt
  | x :: xs' => body x ;; for_each body xs'
  end.

Definition services : list string :=
  ["Select a service";
   "Start the Agensense";
   "Get Conversations History";
   "Get Conversation Audio";
   "Delete Conversation";
   "Twillo Configuration";
   "Send Email";
   "Schedule Meeting";
   "Translation"].

(** [selected == name], where [selected] may be [None]. *)
Definition is_service (selected : option string) (name : string) : bool :=
  match selected with
  | Some s => String.eqb s name
  | None => false
  end.

(** The truth value of what [st.selectbox] and [get_audio] return. *)
Definition truthy_choice (v : option json) : bool :=
  match v with
  | Some x => PyText.truthy x
  | None => false
  end.

Section Menu.

Variable env : Env.

(** [repr] of a float. *)
Variable float_repr : Z -> string.

(** The three texts of the page header that hold characters above 255:
    the page icon and the two banners. *)
Variables page_icon icon_banner welcome_banner : string.

Definition intro_banner : string :=
  "<p style=" ++ char PyText.dquote
  ++ "text-align: center; font-size: 1.2em;" ++ char PyText.dquote
  ++ ">Agensense is here to help you explore Comsense Technologies with ease and efficiency.</p>".

(** The text [f"{v}"] of a value. *)
Definition fmt (v : json) : string := PyText.str float_repr v.

(** [if st.session_state.agent_running: stop_conversation()] *)
Definition stop_if_running : M unit :=
  fun w => if agent_running w then stop_conversation env w else ret tt w.

(** The branch "Get Conversations History", once a running session has been
    stopped. *)
Definition history_listing (ui : Ui) : MP unit :=
  (conversation_ids <- in_world (get_conversations env) ;;
   match conversation_ids with
   | _ :: _ =>
       let selected := selectbox ui "Select a Conversation ID:"
                                 conversation_ids in
       match selected with
       | Some selected_conversation_id =>
           if PyText.truthy selected_conversation_id then
             messages <- in_world
                           (get_messages env (fmt selected_conversation_id)) ;;
             render (Markdown ("### Messages for Conversation ID: "
                               ++ fmt selected_conversation_id) false) ;;
             in_world (for_each (fun message => st_write ("- " ++ fmt message))
                                messages)
           else retP tt
       | None => retP tt
       end
   | [] => in_world (st_write "No conversations found!")
   end)%page.

(** The branch "Get Conversation Audio", once a running session has been
    stopped. *)
Definition audio_listing (ui : Ui) : MP unit :=
  (conversation_ids <- in_world (get_conversations env) ;;
   match conversation_ids with
   | _ :: _ =>
       let selected := selectbox ui "Select a Conversation ID for Audio:"
                                 conversation_ids in
       match selected with
       | Some selected_conversation_id =>
           if PyText.truthy selected_conversation_id then
             audio_file_path <- in_world
                                  (get_audio env (fmt selected_conversation_id)) ;;
             match audio_file_path with
             | Some path =>
                 if negb (String.eqb path "")
                 then render (Audio path "audio/wav")
                 else render (ErrorBox
                                "Failed to retrieve audio. Please try again.")
             | None =>
                 render (ErrorBox "Failed to retrieve audio. Please try again.")
             end
           else retP tt
       | None => retP tt
       end
   | [] => in_world (st_write "No conversations found!")
   end)%page.

(** The branch "Delete Conversation", once a running session has been
    stopped. *)
Definition delete_listing (ui : Ui) : MP unit :=
  (conversation_ids <- in_world (get_conversations env) ;;
   match conversation_ids with
   | _ :: _ =>
       let selected := selectbox ui "Select a Conversation ID to Delete:"
                                 conversation_ids in
       if pressed ui "Delete Conversation" then
         if truthy_choice selected then
           match selected with
           | Some selected_conversation_id =>
               result <- in_world
                           (delete_conversation env
                              (fmt selected_conversation_id)) ;;
               render (SuccessBox result)
           | None => retP tt
           end
         else render (ErrorBox "No Conversation ID selected.")
       else retP tt
   | [] => in_world (st_write "No conversations found!")
   end)%page.

(** The three branches that browse the conversations begin with
    [if st.session_state.agent_running: stop_conversation()]. *)
Definition history_service (ui : Ui) : MP unit :=
  (in_world stop_if_running ;; history_listing ui)%page.

Definition audio_service (ui : Ui) : MP unit :=
  (in_world stop_if_running ;; audio_listing ui)%page.

Definition delete_service (ui : Ui) : MP unit :=
  (in_world stop_if_running ;; delete_listing ui)%page.

(** The page header: the configuration and the three banners. *)
Definition header : list Element :=
  [PageConfig "Agensense - Your Comsense AI Agent" page_icon "centered";
   Markdown icon_banner true;
   Markdown welcome_banner true;
   Markdown intro_banner true].

(** [main].  The flag of the session state is a boolean of the world,
    [False] where the script has not set it, so that its
    initialisation changes nothing. *)
Definition main (ui : Ui) : MP unit :=
  (render (PageConfig "Agensense - Your Comsense AI Agent" page_icon
                      "centered") ;;
   render (Markdown icon_banner true) ;;
   render (Markdown welcome_banner true) ;;
   render (Markdown intro_banner true) ;;
   let selected_service := selectbox ui "Choose a Service:" services in
   if is_service selected_service "Start the Agensense" then
     in_world (main_start_service env (pressed ui))
   else if is_service selected_service "Get Conversations History" then
     history_service ui
   else if is_service selected_service "Get Conversation Audio" then
     audio_service ui
   else if is_service selected_service "Delete Conversation" then
     delete_service ui
   else if is_service selected_service "Twillo Configuration" then
     in_world (st_write "Coming Soon...")
   else if is_service selected_service "Send Email" then
     in_world (st_write "Coming Soon...")
   else if is_service selected_service "Schedule Meeting" then
     in_world (st_write "Coming Soon...")
   else if is_service selected_service "Translation" then
     in_world (st_write "Coming Soon...")
   else retP tt)%page.

End Menu.

(** The choice of the service with index [n] in the menu, no button
    pressed, the first conversation selected. *)
Definition choosing (n : nat) : Ui :=
  mkUi (fun label => if String.eqb label "Choose a Service:" then n else 0)
       (fun _ => false).

(** The same, with every button pressed. *)
Definition choosing_and_pressing (n : nat) : Ui :=
  mkUi (fun label => if String.eqb label "Choose a Service:" then n else 0)
       (fun _ => true).

(** The service answers the list request with [listing] and every other
    request with [other]. *)
Definition answering_list (listing other : Response) : Env :=
  mkEnv "key" "agent"
        (fun _ req => if String.eqb (url req) conversations_url
                      then Ok listing else Ok other)
        (fun _ _ => None) decode encode_wav flat_export_raises flat_realpath.

(** ** Relations a computation may keep between the world it finds and
    the world it leaves *)

Definition preserves (R : World -> World -> Prop) {A} (m : M A) : Prop :=
  forall w, R w (exec m w).

Definition preservesP (R : World -> World -> Prop) {A} (m : MP A) : Prop :=
  forall p, R (world p) (world (execP m p)).

(** The session state and the SDK log are the same. *)
Definition same_session (w w' : World) : Prop :=
  session w' = session w /\ sdk_log w' = sdk_log w.

(** The requests issued in between are all GET requests. *)
Definition gets_only (w w' : World) : Prop :=
  exists new,
    http_log w' = (http_log w ++ new)%list /\
    Forall (fun req => method req = GET) new.

(** No request has been issued and no file written in between. *)
Definition offline (w w' : World) : Prop :=
  http_log w' = http_log w /\ files w' = files w.

(** ** Proof tools *)

Ltac unfold_m :=
  unfold exec, outcome, new_Conversation, bind, ret, raise, lift,
    set_conversation, set_agent_running, st_write, write_file, sdk_call,
    requests_send, response_json in *.

(** ** The monad

    Its laws, pointwise in the world. *)

Lemma bind_ret_l {A B} (a : A) (k : A -> M B) w : bind (ret a) k w = k a w.
Proof. reflexivity. Qed.

Lemma bind_ret_r {A} (m : M A) w : bind m ret w = m w.
Proof. unfold bind, ret. now destruct (m w) as [[a|e] w']. Qed.

Lemma bind_assoc {A B C} (m : M A) (k : A -> M B) (k' : B -> M C) w :
  bind (bind m k) k' w = bind m (fun a => bind (k a) k') w.
Proof. unfold bind. now destruct (m w) as [[a|e] w']. Qed.

(** An exception ends the computation where it is raised. *)
Lemma bind_raise {A B} e (k : A -> M B) w : bind (raise e) k w = (Raise e, w).
Proof. reflexivity. Qed.

(** ** Python's comprehension over well-shaped entries *)

Lemma getitem_carried entry key v :
  (exists fields, entry = JDict fields /\ dict_get key fields = Some v) ->
  Py.getitem entry key = Ok v.
Proof. intros (fields & -> & E). simpl. now rewrite E. Qed.

Lemma comprehension_Forall2 key entries values :
  Forall2 (fun e v =>
             exists fields, e = JDict fields /\ dict_get key fields = Some v)
          entries values ->
  Py.comprehension (fun e => Py.getitem e key) entries = Ok values.
Proof.
  induction 1 as [|e v es vs He _ IH]; simpl.
  - reflexivity.
  - rewrite (getitem_carried _ _ _ He), IH. reflexivity.
Qed.

(** An entry without the key ends the comprehension with [KeyError],
    when the entries before it are well shaped. *)
Lemma comprehension_KeyError key before fields after values :
  Forall2 (fun e v =>
             exists fs, e = JDict fs /\ dict_get key fs = Some v)
          before values ->
  dict_get key fields = None ->
  Py.comprehension (fun e => Py.getitem e key)
                   (before ++ JDict fields :: after) = Raise (KeyError key).
Proof.
  intros Hb Hk. induction Hb as [|e v es vs He _ IH]; simpl.
  - now rewrite Hk.
  - rewrite (getitem_carried _ _ _ He), IH. reflexivity.
Qed.

(** ** Stop and start, in closed form *)

Lemma stop_without_handle env w :
  conversation w = None -> stop_conversation env w = (Ok tt, w).
Proof. intros E. unfold stop_conversation. now rewrite E. Qed.

Lemma stop_with_handle env w h :
  conversation w = Some h ->
  stop_conversation env w =
  match sdk_raises env (sdk_log w) (StopSession h) with
  | Some e =>
      (Raise e,
       mkWorld (Some h) (agent_running w) (next_handle w)
               (sdk_log w ++ [StopSession h]) (http_log w) (page w) (files w))
  | None =>
      (Ok tt,
       mkWorld (Some h) false (next_handle w)
               (sdk_log w ++ [StopSession h]) (http_log w)
               (page w ++ [stopped_message]) (files w))
  end.
Proof.
  intros E. unfold stop_conversation. rewrite E. unfold_m. simpl.
  rewrite E. destruct (sdk_raises env (sdk_log w) (StopSession h));
    reflexivity.
Qed.

(** Stop never touches the global, and can only lower the flag. *)
Lemma stop_keeps_handle env w :
  conversation (exec (stop_conversation env) w) = conversation w.
Proof.
  destruct (conversation w) as [h|] eqn:E; unfold exec.
  - rewrite (stop_with_handle _ _ _ E).
    destruct (sdk_raises env (sdk_log w) (StopSession h)); simpl; congruence.
  - rewrite (stop_without_handle _ _ E). exact E.
Qed.

Lemma stop_flag env w :
  agent_running (exec (stop_conversation env) w) = false \/
  agent_running (exec (stop_conversation env) w) = agent_running w.
Proof.
  destruct (conversation w) as [h|] eqn:E; unfold exec.
  - rewrite (stop_with_handle _ _ _ E).
    destruct (sdk_raises env (sdk_log w) (StopSession h)); simpl; auto.
  - rewrite (stop_without_handle _ _ E). auto.
Qed.

Lemma stop_next_handle env w :
  next_handle (exec (stop_conversation env) w) = next_handle w.
Proof.
  destruct (conversation w) as [h|] eqn:E; unfold exec.
  - rewrite (stop_with_handle _ _ _ E).
    destruct (sdk_raises env (sdk_log w) (StopSession h)); reflexivity.
  - now rewrite (stop_without_handle _ _ E).
Qed.

(** The three ways a start can end. *)
Lemma start_cases env w :
  let h := next_handle w in
  let made := construction env h in
  start_conversation env w =
  match sdk_raises env (sdk_log w) made with
  | Some e =>
      (Raise e,
       mkWorld (conversation w) (agent_running w) (S h)
               (sdk_log w ++ [made]) (http_log w) (page w) (files w))
  | None =>
      match sdk_raises env (sdk_log w ++ [made]) (StartSession h) with
      | Some e =>
          (Raise e,
           mkWorld (Some h) (agent_running w) (S h)
                   (sdk_log w ++ [made] ++ [StartSession h])
                   (http_log w) (page w) (files w))
      | None =>
          (Ok tt,
           mkWorld (Some h) true (S h)
                   (sdk_log w ++ [made] ++ [StartSession h])
                   (http_log w) (page w) (files w))
      end
  end.
Proof.
  unfold start_conversation. unfold_m. simpl.
  destruct (sdk_raises env (sdk_log w) _); [reflexivity|]. simpl.
  rewrite <- app_assoc. simpl.
  destruct (sdk_raises env _ (StartSession _)); reflexivity.
Qed.

(** After a start the global is bound whenever the flag is set, and the
    handle it is bound to is an object that exists. *)
Lemma start_binds env w :
  (agent_running (exec (start_conversation env) w) = true ->
   agent_running w = true \/
   conversation (exec (start_conversation env) w) = Some (next_handle w)) /\
  (conversation (exec (start_conversation env) w) = conversation w \/
   conversation (exec (start_conversation env) w) = Some (next_handle w)) /\
  next_handle (exec (start_conversation env) w) = S (next_handle w).
Proof.
  unfold exec. rewrite start_cases.
  destruct (sdk_raises env (sdk_log w) _); simpl; [auto|].
  destruct (sdk_raises env _ (StartSession _)); simpl; auto.
Qed.

(** ** The clients leave the controller alone *)

Lemma same_controller_refl w : same_controller w w.
Proof. repeat split. Qed.

Lemma same_controller_trans w1 w2 w3 :
  same_controller w1 w2 -> same_controller w2 w3 -> same_controller w1 w3.
Proof.
  unfold same_controller. intros (A1 & A2 & A3 & A4 & A5) (B1 & B2 & B3 & B4 & B5).
  repeat split; congruence.
Qed.

Lemma keeps_ret {A} (a : A) : keeps_controller (ret a).
Proof. intros w. apply same_controller_refl. Qed.

Lemma keeps_raise {A} e : keeps_controller (@raise A e).
Proof. intros w. apply same_controller_refl. Qed.

Lemma keeps_lift {A} (r : result A) : keeps_controller (lift r).
Proof. intros w. apply same_controller_refl. Qed.

Lemma keeps_bind {A B} (m : M A) (k : A -> M B) :
  keeps_controller m -> (forall a, keeps_controller (k a)) ->
  keeps_controller (bind m k).
Proof.
  intros Hm Hk w. specialize (Hm w). unfold exec, bind in *.
  destruct (m w) as [[a|e] w'] eqn:E; simpl in *.
  - eapply same_controller_trans; [exact Hm|]. apply (Hk a w').
  - exact Hm.
Qed.

Lemma keeps_if {A} (b : bool) (m1 m2 : M A) :
  keeps_controller m1 -> keeps_controller m2 ->
  keeps_controller (if b then m1 else m2).
Proof. now destruct b. Qed.

Lemma keeps_requests_send env req : keeps_controller (requests_send env req).
Proof. intros w. repeat split. Qed.

Lemma keeps_response_json r : keeps_controller (response_json r).
Proof.
  unfold response_json. destruct (json_body r); [apply keeps_ret | apply keeps_raise].
Qed.

Lemma keeps_write_file path data : keeps_controller (write_file path data).
Proof. intros w. repeat split. Qed.

Lemma keeps_export env audio path : keeps_controller (export env audio path).
Proof.
  intros w. unfold exec, export.
  destruct (export_raises env (files w) path); repeat split.
Qed.

Create HintDb frame.
#[local] Hint Resolve keeps_ret keeps_raise keeps_lift keeps_requests_send
  keeps_response_json keeps_write_file keeps_export : frame.

Ltac frame :=
  repeat first
    [ apply keeps_bind; [| intros ? ]
    | apply keeps_if
    | solve [ auto with frame ] ].

Lemma get_conversations_frame env : keeps_controller (get_conversations env).
Proof. unfold get_conversations. frame. Qed.

Lemma get_messages_frame env i : keeps_controller (get_messages env i).
Proof. unfold get_messages. frame. Qed.

Lemma get_audio_frame env i : keeps_controller (get_audio env i).
Proof. unfold get_audio. frame. Qed.

Lemma delete_conversation_frame env i :
  keeps_controller (delete_conversation env i).
Proof. unfold delete_conversation. frame. Qed.

(** ** The callback and the menu, in closed form *)

Lemma utterance_cases env t w :
  handle_user_transcript env t w =
  if String.eqb (PyStr.lower (PyStr.strip t)) "stop"
  then stop_conversation env (exec (st_write ("**User:** " ++ t)) w)
  else (Ok tt, exec (st_write ("**User:** " ++ t)) w).
Proof.
  unfold handle_user_transcript, bind. simpl.
  destruct (String.eqb _ "stop"); reflexivity.
Qed.

Lemma menu_when_running env button w :
  agent_running w = true ->
  main_start_service env button w =
  if button "Stop Agensense"
  then stop_conversation env (exec (st_write "**Agent is already running**") w)
  else (Ok tt, exec (st_write "**Agent is already running**") w).
Proof.
  intros E. unfold main_start_service. rewrite E. simpl.
  unfold bind. simpl. destruct (button _); reflexivity.
Qed.

Lemma menu_when_idle env button w :
  agent_running w = false ->
  main_start_service env button w =
  if button "Start Agensense"
  then (start_conversation env ;; st_write "**Agent has been started**") w
  else (Ok tt, w).
Proof.
  intros E. unfold main_start_service. rewrite E. simpl.
  destruct (button _); reflexivity.
Qed.

(** ** The invariant of the controller *)

Lemma inv_initial fs : controller_inv (initial_world fs).
Proof. split; simpl; [discriminate | intros h; discriminate]. Qed.

Lemma inv_same_controller w w' :
  same_controller w w' -> controller_inv w -> controller_inv w'.
Proof.
  intros (C & F & N & _ & _) [I1 I2]. unfold controller_inv.
  rewrite C, F, N. now split.
Qed.

Lemma inv_st_write text w :
  controller_inv w -> controller_inv (exec (st_write text) w).
Proof. intros I. exact I. Qed.

Lemma inv_stop env w :
  controller_inv w -> controller_inv (exec (stop_conversation env) w).
Proof.
  intros [I1 I2]. unfold controller_inv.
  rewrite stop_keeps_handle, stop_next_handle. split; [|exact I2].
  destruct (stop_flag env w) as [F|F]; rewrite F; [discriminate | exact I1].
Qed.

Lemma inv_start env w :
  controller_inv w -> controller_inv (exec (start_conversation env) w).
Proof.
  intros [I1 I2]. destruct (start_binds env w) as (F & C & N).
  unfold controller_inv. rewrite N. split.
  - intros R. destruct C as [C|C]; rewrite C; [|discriminate].
    destruct (F R) as [R'|C']; [now apply I1|].
    rewrite <- C, C'. discriminate.
  - intros h E. destruct C as [C|C]; rewrite C in E.
    + specialize (I2 h E). lia.
    + injection E as <-. lia.
Qed.

Lemma inv_run_op env o w : controller_inv w -> controller_inv (run_op env o w).
Proof.
  intros I. destruct o as [| |t|button| |i|i|i]; simpl.
  - now apply inv_start.
  - now apply inv_stop.
  - unfold exec. rewrite utterance_cases.
    destruct (String.eqb _ "stop").
    + apply inv_stop, inv_st_write, I.
    + apply inv_st_write, I.
  - unfold exec. destruct (agent_running w) eqn:R.
    + rewrite (menu_when_running _ _ _ R). destruct (button _).
      * apply inv_stop, inv_st_write, I.
      * apply inv_st_write, I.
    + rewrite (menu_when_idle _ _ _ R). destruct (button _); [|exact I].
      pose proof (inv_start env w I) as I'. unfold exec, bind in *.
      destruct (start_conversation env w) as [[[]|e] w']; simpl in *.
      * now apply inv_st_write.
      * exact I'.
  - exact (inv_same_controller _ _ (get_conversations_frame env w) I).
  - exact (inv_same_controller _ _ (get_messages_frame env i w) I).
  - exact (inv_same_controller _ _ (get_audio_frame env i w) I).
  - exact (inv_same_controller _ _ (delete_conversation_frame env i w) I).
Qed.

(** It holds after any sequence of calls from the initial state. *)
Lemma inv_run_ops env os : forall w,
  controller_inv w -> controller_inv (run_ops env os w).
Proof.
  unfold run_ops. induction os as [|o os IH]; intros w I; simpl.
  - exact I.
  - apply IH. now apply inv_run_op.
Qed.

(** ** Strings *)

Lemma append_length (a b : string) :
  String.length (a ++ b) = String.length a + String.length b.
Proof. induction a as [|c a IH]; simpl; [reflexivity | now rewrite IH]. Qed.

Lemma append_cancel_r (a b s : string) : a ++ s = b ++ s -> a = b.
Proof.
  revert b. induction a as [|c a IH]; intros [|d b] E; simpl in *.
  - reflexivity.
  - apply (f_equal String.length) in E. simpl in E.
    rewrite append_length in E. lia.
  - apply (f_equal String.length) in E. simpl in E.
    rewrite append_length in E. lia.
  - injection E as -> E. f_equal. now apply IH.
Qed.

(** The file written for a conversation is named after it alone: two
    conversations never share a file. *)
Lemma audio_file_path_inj a b : audio_file_path a = audio_file_path b -> a = b.
Proof. apply append_cancel_r. Qed.

(** ** The voice session controller *)

(** C1, as the code has it.  [start_conversation] has no guard of its
    own and nothing in the program raises a session-already-active
    error: called while Running, with the SDK calls returning normally,
    it returns normally, constructs a new [Conversation], rebinds the
    global to it and starts it, makes no stop call on the session that
    was running, and leaves the flag set; the new handle differs from
    the one it replaces, an object constructed before.  The guard is in the
    menu: when the flag is set, [main] does not call start; it writes
    that the agent is already running and, unless its stop button is
    pressed, changes nothing else. *)
Theorem start_is_unguarded env w :
  Running w ->
  (sdk_raises env (sdk_log w) (construction env (next_handle w)) = None ->
   sdk_raises env (sdk_log w ++ [construction env (next_handle w)])
              (StartSession (next_handle w)) = None ->
   start_conversation env w =
   (Ok tt,
    mkWorld (Some (next_handle w)) true (S (next_handle w))
            (sdk_log w ++ [construction env (next_handle w);
                           StartSession (next_handle w)])
            (http_log w) (page w) (files w))) /\
  (allocated w -> conversation w <> Some (next_handle w)) /\
  (forall button, button "Stop Agensense" = false ->
     main_start_service env button w =
     (Ok tt,
      mkWorld (conversation w) (agent_running w) (next_handle w) (sdk_log w)
              (http_log w) (page w ++ ["**Agent is already running**"])
              (files w))).
Proof.
  intros R. repeat split.
  - intros E1 E2. rewrite start_cases. cbv zeta. now rewrite E1, E2.
  - intros I E. specialize (I _ E). lia.
  - intros button E. rewrite (menu_when_running _ _ _ R), E. reflexivity.
Qed.

(** C1 at a concrete state: Running, after one start. *)
Lemma start_is_unguarded_witness :
  Running started_world /\
  start_conversation quiet started_world =
  (Ok tt,
   mkWorld (Some 1) true 2
           [NewConversation 0 "agent" true; StartSession 0;
            NewConversation 1 "agent" true; StartSession 1] [] [] []) /\
  conversation started_world <> Some 1 /\
  main_start_service quiet (fun _ => false) started_world =
  (Ok tt,
   mkWorld (Some 0) true 1 [NewConversation 0 "agent" true; StartSession 0]
           [] ["**Agent is already running**"] []).
Proof.
  assert (R : Running started_world) by reflexivity.
  assert (A : allocated started_world)
    by (intros h E; injection E as <-; simpl; lia).
  destruct (start_is_unguarded quiet started_world R) as (S1 & S2 & S3).
  split; [exact R|]. split; [|split].
  - exact (S1 eq_refl eq_refl).
  - exact (S2 A).
  - exact (S3 (fun _ => false) eq_refl).
Defined.

(** C1 as the specification has it fails: a start made while Running
    returns normally and replaces the handle of the running session. *)
Lemma start_while_running_succeeds :
  Running started_world /\
  outcome (start_conversation quiet) started_world = Ok tt /\
  conversation started_world = Some 0 /\
  conversation (exec (start_conversation quiet) started_world) = Some 1 /\
  ~ (forall env w,
       Running w ->
       returns (outcome (start_conversation env) w) = false /\
       session (exec (start_conversation env) w) = session w).
Proof.
  repeat split.
  intros H. destruct (H quiet started_world eq_refl) as [H1 _].
  discriminate H1.
Qed.

(** C6, as the code has it.  A stop made while Idle leaves the session
    state as it is, Idle with the same handle, and stop is idempotent
    on the session state: after a stop that returns, a second stop
    leaves that state the same.  It does nothing at all while no handle
    is bound; with a handle bound it calls [stop_session] on it, Idle or
    not. *)
Theorem stop_when_idle env w :
  (Idle w ->
   Idle (exec (stop_conversation env) w) /\
   session (exec (stop_conversation env) w) = session w) /\
  (conversation w = None -> stop_conversation env w = (Ok tt, w)) /\
  (forall h, conversation w = Some h ->
     sdk_log (exec (stop_conversation env) w)
     = (sdk_log w ++ [StopSession h])%list) /\
  (returns (outcome (stop_conversation env) w) = true ->
   session (exec (stop_conversation env) (exec (stop_conversation env) w))
   = session (exec (stop_conversation env) w)).
Proof.
  unfold Idle, session. split; [|split; [|split]].
  - intros I. rewrite stop_keeps_handle.
    destruct (stop_flag env w) as [F|F]; rewrite F; split; congruence.
  - apply stop_without_handle.
  - intros h E. unfold exec. rewrite (stop_with_handle _ _ _ E).
    now destruct (sdk_raises env (sdk_log w) (StopSession h)).
  - intros Hret. rewrite !stop_keeps_handle. f_equal.
    destruct (stop_flag env (exec (stop_conversation env) w)) as [F|F];
      [|exact F].
    rewrite F. symmetry.
    destruct (conversation w) as [h|] eqn:E; unfold exec, outcome in *.
    + rewrite (stop_with_handle _ _ _ E) in *.
      now destruct (sdk_raises env (sdk_log w) (StopSession h)).
    + rewrite (stop_without_handle _ _ E) in *. simpl in *.
      rewrite (stop_without_handle _ _ E) in F. exact F.
Qed.

(** C6 at two concrete states: Idle with no handle, and Idle with the
    handle of the stopped session. *)
Lemma stop_when_idle_witness :
  (Idle stopped_world /\
   session (exec (stop_conversation quiet) stopped_world)
   = session stopped_world) /\
  stop_conversation quiet (initial_world []) = (Ok tt, initial_world []) /\
  sdk_log (exec (stop_conversation quiet) stopped_world)
  = (sdk_log stopped_world ++ [StopSession 0])%list /\
  session (exec (stop_conversation quiet)
                (exec (stop_conversation quiet) started_world))
  = session (exec (stop_conversation quiet) started_world).
Proof.
  split; [|split; [|split]].
  - split; [reflexivity|].
    exact (proj2 (proj1 (stop_when_idle quiet stopped_world) eq_refl)).
  - exact (proj1 (proj2 (stop_when_idle quiet (initial_world []))) eq_refl).
  - exact (proj1 (proj2 (proj2 (stop_when_idle quiet stopped_world)))
                 0 eq_refl).
  - exact (proj2 (proj2 (proj2 (stop_when_idle quiet started_world)))
                 eq_refl).
Defined.

(** C6 as the specification has it fails: Idle with a handle bound, a
    stop is not a no-op, it calls [stop_session] once more and writes to
    the page. *)
Lemma stop_when_idle_not_noop :
  Idle stopped_world /\
  sdk_log stopped_world
  = [NewConversation 0 "agent" true; StartSession 0; StopSession 0] /\
  sdk_log (exec (stop_conversation quiet) stopped_world)
  = [NewConversation 0 "agent" true; StartSession 0; StopSession 0;
     StopSession 0] /\
  page (exec (stop_conversation quiet) stopped_world)
  = (page stopped_world ++ [stopped_message])%list /\
  ~ (forall env w, Idle w -> stop_conversation env w = (Ok tt, w)).
Proof.
  repeat split.
  intros H. specialize (H quiet stopped_world eq_refl).
  apply (f_equal (fun p => List.length (sdk_log (snd p)))) in H.
  discriminate H.
Qed.

(** Without a start the global stays unbound. *)
Lemma unbound_until_start env os : forall w,
  forallb (fun o => negb (may_start o)) os = true ->
  conversation w = None -> conversation (run_ops env os w) = None.
Proof.
  unfold run_ops. induction os as [|o os IH]; intros w Hos E; simpl in *.
  - exact E.
  - apply andb_prop in Hos. destruct Hos as [Ho Hos].
    apply IH; [exact Hos|].
    destruct o as [| |t|button| |i|i|i]; simpl in *; try discriminate.
    + now rewrite stop_keeps_handle.
    + unfold exec. rewrite utterance_cases.
      destruct (String.eqb _ "stop"); [|exact E].
      fold (exec (stop_conversation env)
                 (exec (st_write ("**User:** " ++ t)) w)).
      now rewrite stop_keeps_handle.
    + apply negb_true_iff in Ho. unfold exec.
      destruct (agent_running w) eqn:R.
      * rewrite (menu_when_running _ _ _ R).
        destruct (button "Stop Agensense"); [|exact E].
        fold (exec (stop_conversation env)
                   (exec (st_write "**Agent is already running**") w)).
        now rewrite stop_keeps_handle.
      * now rewrite (menu_when_idle _ _ _ R), Ho.
    + destruct (get_conversations_frame env w) as [C _]. now rewrite C.
    + destruct (get_messages_frame env i w) as [C _]. now rewrite C.
    + destruct (get_audio_frame env i w) as [C _]. now rewrite C.
    + destruct (delete_conversation_frame env i w) as [C _]. now rewrite C.
Qed.

(** Once bound, the global stays bound. *)
Lemma bound_stays_bound env o w h :
  conversation w = Some h ->
  exists h', conversation (run_op env o w) = Some h'.
Proof.
  intros E. destruct o as [| |t|button| |i|i|i]; simpl.
  - destruct (start_binds env w) as (_ & [C|C] & _); rewrite C; eauto.
  - rewrite stop_keeps_handle. eauto.
  - unfold exec. rewrite utterance_cases.
    destruct (String.eqb _ "stop"); [|simpl; eauto].
    fold (exec (stop_conversation env)
               (exec (st_write ("**User:** " ++ t)) w)).
    rewrite stop_keeps_handle. simpl. eauto.
  - unfold exec. destruct (agent_running w) eqn:R.
    + rewrite (menu_when_running _ _ _ R).
      destruct (button "Stop Agensense"); [|simpl; eauto].
      fold (exec (stop_conversation env)
                 (exec (st_write "**Agent is already running**") w)).
      rewrite stop_keeps_handle. simpl. eauto.
    + rewrite (menu_when_idle _ _ _ R).
      destruct (button "Start Agensense"); [|simpl; eauto].
      destruct (start_binds env w) as (_ & C & _). unfold exec, bind in *.
      destruct (start_conversation env w) as [[[]|e] w']; simpl in *;
        destruct C as [C|C]; rewrite C; eauto.
  - destruct (get_conversations_frame env w) as [C _]. rewrite C. eauto.
  - destruct (get_messages_frame env i w) as [C _]. rewrite C. eauto.
  - destruct (get_audio_frame env i w) as [C _]. rewrite C. eauto.
  - destruct (delete_conversation_frame env i w) as [C _]. rewrite C. eauto.
Qed.

(** C10.  The global handle is never cleared once bound, whatever
    operation runs, and a start that returns has bound it.  Stop is
    guarded by the handle, not by the flag: while no start has been made
    the handle is unbound and stop does nothing, the flag included; with
    a handle bound, whatever the flag, stop calls [stop_session] on that
    handle, keeps it bound and, when the call returns, sets the flag to
    False. *)
Theorem handle_retained_and_guards_stop env :
  (forall o w h, conversation w = Some h ->
     exists h', conversation (run_op env o w) = Some h') /\
  (forall w, returns (outcome (start_conversation env) w) = true ->
     conversation (exec (start_conversation env) w) = Some (next_handle w)) /\
  (forall os fs, forallb (fun o => negb (may_start o)) os = true ->
     conversation (run_ops env os (initial_world fs)) = None) /\
  (forall w, conversation w = None -> stop_conversation env w = (Ok tt, w)) /\
  (forall w h, conversation w = Some h ->
     sdk_log (exec (stop_conversation env) w)
     = (sdk_log w ++ [StopSession h])%list /\
     conversation (exec (stop_conversation env) w) = Some h /\
     (sdk_raises env (sdk_log w) (StopSession h) = None ->
      outcome (stop_conversation env) w = Ok tt /\
      agent_running (exec (stop_conversation env) w) = false)).
Proof.
  split; [|split; [|split; [|split]]].
  - intros o w h. apply bound_stays_bound.
  - intros w. unfold outcome, exec. rewrite start_cases. cbv zeta.
    destruct (sdk_raises env (sdk_log w) _); [discriminate|].
    destruct (sdk_raises env _ (StartSession _)); [discriminate|].
    reflexivity.
  - intros os fs Hos. now apply unbound_until_start.
  - intros w. apply stop_without_handle.
  - intros w h E. unfold exec, outcome. rewrite (stop_with_handle _ _ _ E).
    destruct (sdk_raises env (sdk_log w) (StopSession h)) as [e|];
      repeat split; discriminate.
Qed.

(** C10 on a run: no handle before the start; after it, two stops in a
    row, the second with the flag already False. *)
Lemma handle_retained_and_guards_stop_witness :
  (exists h', conversation (run_op quiet OpStop started_world) = Some h') /\
  conversation (exec (start_conversation quiet) (initial_world []))
  = Some 0 /\
  conversation (run_ops quiet [OpStop; OpUtterance "stop"; OpList]
                        (initial_world [])) = None /\
  stop_conversation quiet (initial_world []) = (Ok tt, initial_world []) /\
  agent_running stopped_world = false /\
  sdk_log (exec (stop_conversation quiet) stopped_world)
  = [NewConversation 0 "agent" true; StartSession 0; StopSession 0;
     StopSession 0] /\
  conversation (exec (stop_conversation quiet) stopped_world) = Some 0 /\
  agent_running (exec (stop_conversation quiet) stopped_world) = false.
Proof.
  destruct (handle_retained_and_guards_stop quiet) as (H1 & H2 & H3 & H4 & H5).
  destruct (H5 stopped_world 0 eq_refl) as (L & C & F).
  split; [exact (H1 OpStop started_world 0 eq_refl)|].
  split; [exact (H2 (initial_world []) eq_refl)|].
  split; [exact (H3 [OpStop; OpUtterance "stop"; OpList] [] eq_refl)|].
  split; [exact (H4 (initial_world []) eq_refl)|].
  split; [reflexivity|].
  split; [exact L|].
  split; [exact C|].
  exact (proj2 (F eq_refl)).
Defined.

(** C2.  When the utterance, stripped and lowered, is [stop], the
    callback writes it to the page and then runs [stop_conversation]
    before it returns: a bound handle gets its [stop_session] call, and
    wherever the global is bound when the flag is set, as the functions
    of the module keep it, the SDK call returning, the callback returns
    with the session Idle.  For any other utterance the callback
    only writes to the page: no stop, the session state and the SDK
    untouched. *)
Theorem stop_word_stops_session env t w :
  (PyStr.lower (PyStr.strip t) = "stop" ->
   handle_user_transcript env t w
   = stop_conversation env (exec (st_write ("**User:** " ++ t)) w) /\
   (forall h, conversation w = Some h ->
      sdk_log (exec (handle_user_transcript env t) w)
      = (sdk_log w ++ [StopSession h])%list) /\
   (controller_inv w ->
    (forall h, conversation w = Some h ->
       sdk_raises env (sdk_log w) (StopSession h) = None) ->
    outcome (handle_user_transcript env t) w = Ok tt /\
    Idle (exec (handle_user_transcript env t) w))) /\
  (PyStr.lower (PyStr.strip t) <> "stop" ->
   handle_user_transcript env t w
   = (Ok tt, exec (st_write ("**User:** " ++ t)) w) /\
   session (exec (handle_user_transcript env t) w) = session w /\
   sdk_log (exec (handle_user_transcript env t) w) = sdk_log w).
Proof.
  split.
  - intros Hs. apply String.eqb_eq in Hs.
    assert (Hcb : handle_user_transcript env t w
                  = stop_conversation env
                      (exec (st_write ("**User:** " ++ t)) w))
      by (rewrite utterance_cases; now rewrite Hs).
    split; [exact Hcb|].
    set (w1 := exec (st_write ("**User:** " ++ t)) w) in *.
    assert (Hex : exec (handle_user_transcript env t) w
                  = exec (stop_conversation env) w1)
      by (unfold exec; now rewrite Hcb).
    assert (Hout : outcome (handle_user_transcript env t) w
                   = outcome (stop_conversation env) w1)
      by (unfold outcome; now rewrite Hcb).
    rewrite Hex, Hout. unfold exec, outcome.
    split.
    + intros h E.
      assert (E1 : conversation w1 = Some h) by exact E.
      rewrite (stop_with_handle _ _ _ E1).
      now destruct (sdk_raises env (sdk_log w1) (StopSession h)).
    + intros [I _] Hsdk.
      destruct (conversation w) as [h|] eqn:E.
      * assert (E1 : conversation w1 = Some h) by exact E.
        rewrite (stop_with_handle _ _ _ E1).
        change (sdk_log w1) with (sdk_log w). rewrite (Hsdk h eq_refl).
        now split.
      * assert (E1 : conversation w1 = None) by exact E.
        rewrite (stop_without_handle _ _ E1). split; [reflexivity|].
        unfold Idle. simpl. destruct (agent_running w); [|reflexivity].
        now destruct (I eq_refl).
  - intros Hs. apply String.eqb_neq in Hs.
    assert (Hcb : handle_user_transcript env t w
                  = (Ok tt, exec (st_write ("**User:** " ++ t)) w))
      by (rewrite utterance_cases; now rewrite Hs).
    split; [exact Hcb|].
    assert (Hex : exec (handle_user_transcript env t) w
                  = exec (st_write ("**User:** " ++ t)) w)
      by (unfold exec at 1; now rewrite Hcb).
    rewrite Hex. split; reflexivity.
Qed.

(** C2 on the utterance ["  Stop  "], said to a running session, and on
    an utterance that only contains the word. *)
Lemma stop_word_stops_session_witness :
  PyStr.lower (PyStr.strip "  Stop  ") = "stop" /\
  Running started_world /\
  outcome (handle_user_transcript quiet "  Stop  ") started_world = Ok tt /\
  Idle (exec (handle_user_transcript quiet "  Stop  ") started_world) /\
  sdk_log (exec (handle_user_transcript quiet "  Stop  ") started_world)
  = [NewConversation 0 "agent" true; StartSession 0; StopSession 0] /\
  PyStr.lower (PyStr.strip "please stop") <> "stop" /\
  session (exec (handle_user_transcript quiet "please stop") started_world)
  = session started_world.
Proof.
  destruct (stop_word_stops_session quiet "  Stop  " started_world)
    as [Hyes _].
  destruct (Hyes eq_refl) as (_ & Hlog & Hidle).
  destruct (Hidle (inv_run_ops quiet [OpStart] _ (inv_initial []))
                  (fun _ _ => eq_refl)) as [Hok Hi].
  assert (Hne : PyStr.lower (PyStr.strip "please stop") <> "stop")
    by discriminate.
  destruct (stop_word_stops_session quiet "please stop" started_world)
    as [_ Hno].
  destruct (Hno Hne) as (_ & Hsess & _).
  split; [reflexivity|]. split; [reflexivity|]. split; [exact Hok|].
  split; [exact Hi|]. split; [exact (Hlog 0 eq_refl)|].
  split; [exact Hne|]. exact Hsess.
Defined.

(** ** The clients of the remote service *)

(** What each client makes of the response it gets. *)
Lemma get_conversations_of_response env w r :
  send env (http_log w) (conversations_request env) = Ok r ->
  outcome (get_conversations env) w =
  if (status_code r =? 200)%Z then
    match json_body r with
    | None => Raise JSONDecodeError
    | Some (JDict d) =>
        match dict_get "conversations" d with
        | None => Ok []
        | Some convs =>
            match Py.iter convs with
            | Raise e => Raise e
            | Ok items =>
                Py.comprehension (fun c => Py.getitem c "conversation_id")
                                 items
            end
        end
    | Some _ => Ok []
    end
  else Ok [].
Proof.
  intros Hs. unfold get_conversations, outcome, bind, requests_send.
  rewrite Hs. destruct (status_code r =? 200)%Z; [|reflexivity].
  unfold response_json. destruct (json_body r) as [v|]; [|reflexivity].
  destruct v; try reflexivity. simpl. unfold dict_has.
  destruct (dict_get "conversations" entries) as [convs|]; [|reflexivity].
  simpl. destruct (Py.iter convs); reflexivity.
Qed.

Lemma get_messages_of_response env i w r :
  send env (http_log w) (messages_request env i) = Ok r ->
  outcome (get_messages env i) w =
  if (status_code r =? 200)%Z then
    match json_body r with
    | None => Raise JSONDecodeError
    | Some data =>
        match Py.contains "transcript" data with
        | Raise e => Raise e
        | Ok false => Ok [JStr no_messages]
        | Ok true =>
            match Py.getitem data "transcript" with
            | Raise e => Raise e
            | Ok entries =>
                match Py.iter entries with
                | Raise e => Raise e
                | Ok items =>
                    Py.comprehension (fun m => Py.getitem m "message") items
                end
            end
        end
    end
  else Ok [JStr fetch_failed].
Proof.
  intros Hs. unfold get_messages, outcome, bind, requests_send.
  rewrite Hs. destruct (status_code r =? 200)%Z; [|reflexivity].
  unfold response_json. destruct (json_body r) as [v|]; [|reflexivity].
  simpl. unfold lift. destruct (Py.contains "transcript" v) as [[|]|e];
    try reflexivity.
  destruct (Py.getitem v "transcript") as [entries|e]; [|reflexivity].
  destruct (Py.iter entries); reflexivity.
Qed.

Lemma status_non_success r : non_success r -> (status_code r =? 200)%Z = false.
Proof. intros H. now apply Z.eqb_neq. Qed.

Lemma status_success r : status_code r = 200%Z -> (status_code r =? 200)%Z = true.
Proof. intros H. now apply Z.eqb_eq. Qed.

(** C7.  On a 200 response whose body is an object with a
    [conversations] array of objects that each carry [conversation_id],
    [get_conversations] returns exactly those values, in the order of
    the body. *)
Theorem get_conversations_ids_in_order env w r v ids :
  send env (http_log w) (conversations_request env) = Ok r ->
  status_code r = 200%Z ->
  json_body r = Some v ->
  registry_body v ids ->
  outcome (get_conversations env) w = Ok ids.
Proof.
  intros Hs H200 Hb (fields & entries & -> & Hc & Hall).
  rewrite (get_conversations_of_response _ _ _ Hs), (status_success _ H200), Hb, Hc.
  simpl. now apply comprehension_Forall2.
Qed.

(** C7 on the body
    [{"conversations":[{"conversation_id":"a1"},{"conversation_id":"b2"}]}]. *)
Lemma get_conversations_ids_in_order_witness :
  outcome (get_conversations (answering (ok_json two_conversations)))
          (initial_world [])
  = Ok [JStr "a1"; JStr "b2"].
Proof.
  apply (get_conversations_ids_in_order
           (answering (ok_json two_conversations)) (initial_world [])
           (ok_json two_conversations) two_conversations).
  - reflexivity.
  - reflexivity.
  - reflexivity.
  - exists [("conversations",
             JList [JDict [("conversation_id", JStr "a1")];
                    JDict [("conversation_id", JStr "b2")]])].
    exists [JDict [("conversation_id", JStr "a1")];
            JDict [("conversation_id", JStr "b2")]].
    repeat split.
    repeat constructor; eexists; split; reflexivity.
Defined.

(** C3, as the code has it.  [get_conversations] returns the empty
    list, without raising, on every response with a non-success status
    and on every 200 response whose decoded body is not an object or is
    an object without the top-level field [conversations]. *)
Theorem get_conversations_fail_soft env w r :
  send env (http_log w) (conversations_request env) = Ok r ->
  (non_success r -> outcome (get_conversations env) w = Ok []) /\
  (forall v, status_code r = 200%Z -> json_body r = Some v ->
     Py.is_dict v = false -> outcome (get_conversations env) w = Ok []) /\
  (forall fields, status_code r = 200%Z -> json_body r = Some (JDict fields) ->
     dict_get "conversations" fields = None ->
     outcome (get_conversations env) w = Ok []).
Proof.
  intros Hs. rewrite (get_conversations_of_response _ _ _ Hs).
  split; [|split].
  - intros Hn. now rewrite (status_non_success _ Hn).
  - intros v H200 Hb Hd. rewrite (status_success _ H200), Hb.
    destruct v; try reflexivity. discriminate Hd.
  - intros fields H200 Hb Hc. now rewrite (status_success _ H200), Hb, Hc.
Qed.

(** C3 on a 404, on a 200 whose body is a list, and on a 200 whose body
    is an object without [conversations]. *)
Lemma get_conversations_fail_soft_witness :
  outcome (get_conversations (answering not_found)) (initial_world []) = Ok [] /\
  outcome (get_conversations (answering (ok_json (JList [JStr "a1"]))))
          (initial_world []) = Ok [] /\
  outcome (get_conversations (answering (ok_json no_transcript)))
          (initial_world []) = Ok [].
Proof.
  split; [|split].
  - apply (proj1 (get_conversations_fail_soft (answering not_found)
                    (initial_world []) not_found eq_refl)).
    discriminate.
  - exact (proj1 (proj2 (get_conversations_fail_soft
                    (answering (ok_json (JList [JStr "a1"])))
                    (initial_world []) _ eq_refl))
                 (JList [JStr "a1"]) eq_refl eq_refl eq_refl).
  - exact (proj2 (proj2 (get_conversations_fail_soft
                    (answering (ok_json no_transcript))
                    (initial_world []) _ eq_refl))
                 [("status", JStr "done")] eq_refl eq_refl eq_refl).
Defined.

(** C3 as the specification has it fails: on a 200 response whose
    second entry lacks [conversation_id], the call raises [KeyError]. *)
Lemma get_conversations_raises_on_entry_without_id :
  status_code (ok_json entry_without_id) = 200%Z /\
  ~ well_formed_registry (ok_json entry_without_id) /\
  outcome (get_conversations (answering (ok_json entry_without_id)))
          (initial_world [])
  = Raise (KeyError "conversation_id") /\
  ~ (forall env w r,
       send env (http_log w) (conversations_request env) = Ok r ->
       non_success r \/ ~ well_formed_registry r ->
       outcome (get_conversations env) w = Ok []).
Proof.
  assert (Hm : ~ well_formed_registry (ok_json entry_without_id)).
  { intros (v & ids & Hb & fields & entries & -> & Hc & Hall).
    injection Hb as <-. injection Hc as <-.
    inversion Hall as [|e1 i1 es1 is1 _ Hrest]; subst.
    inversion Hrest as [|e2 i2 es2 is2 (fs & Hf & Hg) _]; subst.
    injection Hf as <-. discriminate Hg. }
  repeat split; [exact Hm|].
  intros H.
  specialize (H (answering (ok_json entry_without_id)) (initial_world [])
                (ok_json entry_without_id) eq_refl (or_intror Hm)).
  discriminate H.
Qed.

(** C4, as the code has it.  [get_messages] returns, without raising:
    the message values in the order of the body, on a 200 response whose
    body is an object with a [transcript] array of objects that each
    carry [message]; a list holding one fixed placeholder, on a 200
    response whose body is an object without [transcript]; a list
    holding another fixed placeholder, on a non-success status. *)
Theorem get_messages_cases env w i r :
  send env (http_log w) (messages_request env i) = Ok r ->
  (forall v msgs, status_code r = 200%Z -> json_body r = Some v ->
     transcript_body v msgs -> outcome (get_messages env i) w = Ok msgs) /\
  (forall fields, status_code r = 200%Z -> json_body r = Some (JDict fields) ->
     dict_get "transcript" fields = None ->
     outcome (get_messages env i) w = Ok [JStr no_messages]) /\
  (non_success r -> outcome (get_messages env i) w = Ok [JStr fetch_failed]) /\
  no_messages <> fetch_failed.
Proof.
  intros Hs. rewrite (get_messages_of_response _ _ _ _ Hs).
  split; [|split; [|split]].
  - intros v msgs H200 Hb (fields & entries & -> & Ht & Hall).
    rewrite (status_success _ H200), Hb. simpl. unfold dict_has.
    rewrite Ht. simpl. now apply comprehension_Forall2.
  - intros fields H200 Hb Ht. rewrite (status_success _ H200), Hb. simpl.
    unfold dict_has. now rewrite Ht.
  - intros Hn. now rewrite (status_non_success _ Hn).
  - discriminate.
Qed.

(** C4 on [{"transcript":[{"message":"hi"},{"message":"bye"}]}], on a
    body without [transcript], and on a 404. *)
Lemma get_messages_cases_witness :
  outcome (get_messages (answering (ok_json hi_bye)) "c1") (initial_world [])
  = Ok [JStr "hi"; JStr "bye"] /\
  outcome (get_messages (answering (ok_json no_transcript)) "c1")
          (initial_world [])
  = Ok [JStr "No messages found in this conversation."] /\
  outcome (get_messages (answering not_found) "c1") (initial_world [])
  = Ok [JStr "Failed to fetch messages."].
Proof.
  split; [|split].
  - apply (proj1 (get_messages_cases (answering (ok_json hi_bye))
                    (initial_world []) "c1" (ok_json hi_bye) eq_refl)
                 hi_bye [JStr "hi"; JStr "bye"] eq_refl eq_refl).
    exists [("transcript",
             JList [JDict [("message", JStr "hi")];
                    JDict [("message", JStr "bye")]])].
    exists [JDict [("message", JStr "hi")]; JDict [("message", JStr "bye")]].
    repeat split.
    repeat constructor; eexists; split; reflexivity.
  - exact (proj1 (proj2 (get_messages_cases (answering (ok_json no_transcript))
                           (initial_world []) "c1" _ eq_refl))
                 [("status", JStr "done")] eq_refl eq_refl eq_refl).
  - apply (proj1 (proj2 (proj2 (get_messages_cases (answering not_found)
                                  (initial_world []) "c1" not_found eq_refl)))).
    discriminate.
Defined.

(** C4 as the specification has it fails: on a 200 response whose
    [transcript] field is present and whose second entry lacks
    [message], the call raises [KeyError]. *)
Lemma get_messages_raises_on_entry_without_message :
  status_code (ok_json entry_without_message) = 200%Z /\
  Py.contains "transcript" entry_without_message = Ok true /\
  outcome (get_messages (answering (ok_json entry_without_message)) "c1")
          (initial_world [])
  = Raise (KeyError "message") /\
  ~ (forall env w i r fields,
       send env (http_log w) (messages_request env i) = Ok r ->
       status_code r = 200%Z ->
       json_body r = Some (JDict fields) ->
       dict_has "transcript" fields = true ->
       returns (outcome (get_messages env i) w) = true).
Proof.
  repeat split.
  intros H.
  specialize (H (answering (ok_json entry_without_message)) (initial_world [])
                "c1" (ok_json entry_without_message) _
                eq_refl eq_refl eq_refl eq_refl).
  discriminate H.
Qed.

(** C5.  [delete_conversation] issues one DELETE request and returns,
    without raising, the success message when the status of the response
    is 200 and the failure message for every other status. *)
Theorem delete_conversation_outcome env w i r :
  send env (http_log w) (delete_request env i) = Ok r ->
  (status_code r = 200%Z ->
   outcome (delete_conversation env i) w = Ok deleted_message) /\
  (non_success r ->
   outcome (delete_conversation env i) w = Ok not_deleted_message) /\
  deleted_message <> not_deleted_message /\
  http_log (exec (delete_conversation env i) w)
  = (http_log w ++ [delete_request env i])%list.
Proof.
  intros Hs. unfold delete_conversation, outcome, exec, bind, requests_send.
  rewrite Hs. split; [|split; [|split]].
  - intros H200. now rewrite (status_success _ H200).
  - intros Hn. now rewrite (status_non_success _ Hn).
  - discriminate.
  - now destruct (status_code r =? 200)%Z.
Qed.

(** C5 on a 200 and on a 403. *)
Lemma delete_conversation_outcome_witness :
  outcome (delete_conversation (answering (ok_json JNull)) "c1")
          (initial_world [])
  = Ok "Conversation deleted successfully." /\
  outcome (delete_conversation (answering forbidden) "c1") (initial_world [])
  = Ok "Failed to delete the conversation.".
Proof.
  split.
  - exact (proj1 (delete_conversation_outcome (answering (ok_json JNull))
                    (initial_world []) "c1" _ eq_refl) eq_refl).
  - apply (proj1 (proj2 (delete_conversation_outcome (answering forbidden)
                           (initial_world []) "c1" forbidden eq_refl))).
    discriminate.
Defined.

(** What [get_audio] makes of the response it gets. *)
Lemma get_audio_of_response env i w r :
  send env (http_log w) (audio_request env i) = Ok r ->
  get_audio env i w =
  if (status_code r =? 200)%Z then
    match from_mp3 env (content r) with
    | Ok audio =>
        match export_raises env (files w) (audio_file_path i) with
        | Some e => (Raise e, requested (audio_request env i) w)
        | None =>
            (Ok (Some (audio_file_path i)),
             exec (write_file (audio_file_path i) (to_wav env audio))
                  (requested (audio_request env i) w))
        end
    | Raise e => (Raise e, requested (audio_request env i) w)
    end
  else (Ok None, requested (audio_request env i) w).
Proof.
  intros Hs. unfold get_audio, bind, requests_send. rewrite Hs.
  destruct (status_code r =? 200)%Z; [|reflexivity].
  unfold lift. destruct (from_mp3 env (content r)); [|reflexivity].
  unfold export. simpl.
  now destruct (export_raises env (files w) (audio_file_path i)).
Qed.

(** C8, as the code has it.  On a non-success status [get_audio]
    returns [None] and writes no file.  On a 200 response whose content
    the decoder accepts, and when the working directory lets the file
    [<conversation_id>_audio.wav] be opened for writing, it writes the
    decoded audio, re-encoded as WAV, to that file and returns its
    path; the name depends on the conversation identifier alone, and
    two identifiers never give the same name. *)
Theorem get_audio_cases env w i r :
  send env (http_log w) (audio_request env i) = Ok r ->
  (non_success r ->
   outcome (get_audio env i) w = Ok None /\
   files (exec (get_audio env i) w) = files w) /\
  (forall audio, status_code r = 200%Z ->
     from_mp3 env (content r) = Ok audio ->
     export_raises env (files w) (audio_file_path i) = None ->
     outcome (get_audio env i) w = Ok (Some (audio_file_path i)) /\
     files (exec (get_audio env i) w)
     = (audio_file_path i, to_wav env audio) :: files w /\
     read_file (realpath env) (audio_file_path i)
               (files (exec (get_audio env i) w))
     = Some (to_wav env audio)) /\
  (forall j, audio_file_path i = audio_file_path j -> i = j).
Proof.
  intros Hs. unfold outcome, exec.
  rewrite (get_audio_of_response _ _ _ _ Hs). split; [|split].
  - intros Hn. now rewrite (status_non_success _ Hn).
  - intros audio H200 Hd He. rewrite (status_success _ H200), Hd, He.
    simpl. rewrite String.eqb_refl. repeat split.
  - intros j. apply audio_file_path_inj.
Qed.

(** C8 on a 404 and on a 200 that delivers the recording. *)
Lemma get_audio_cases_witness :
  outcome (get_audio (answering not_found) "c1") (initial_world [])
  = Ok None /\
  files (exec (get_audio (answering not_found) "c1") (initial_world [])) = [] /\
  outcome (get_audio (answering a_recording) "c1") (initial_world [])
  = Ok (Some "c1_audio.wav") /\
  files (exec (get_audio (answering a_recording) "c1") (initial_world []))
  = [("c1_audio.wav", encode_wav samples)].
Proof.
  destruct (get_audio_cases (answering not_found) (initial_world []) "c1"
              not_found eq_refl) as (Hfail & _ & _).
  destruct (get_audio_cases (answering a_recording) (initial_world []) "c1"
              a_recording eq_refl) as (_ & Hok & _).
  assert (Hn : non_success not_found) by discriminate.
  destruct (Hfail Hn) as [F1 F2].
  destruct (Hok samples eq_refl eq_refl eq_refl) as (O1 & O2 & _).
  split; [exact F1|]. split; [exact F2|]. split; [exact O1 | exact O2].
Defined.

(** C8 as the specification has it fails: for the identifier [a/b], in
    a working directory that has no subdirectory [a], a 200 response
    that delivers the recording makes [audio.export] raise, and
    [get_audio] raises with it: no path is returned, no file written. *)
Lemma get_audio_raises_on_unwritable_path :
  status_code a_recording = 200%Z /\
  from_mp3 (answering a_recording) (content a_recording) = Ok samples /\
  outcome (get_audio (answering a_recording) "a/b") (initial_world [])
  = Raise (OSError "No such file or directory") /\
  files (exec (get_audio (answering a_recording) "a/b") (initial_world []))
  = [] /\
  ~ (forall env w i r,
       send env (http_log w) (audio_request env i) = Ok r ->
       status_code r = 200%Z ->
       exists path, outcome (get_audio env i) w = Ok (Some path)).
Proof.
  split; [reflexivity|]. split; [reflexivity|]. split; [reflexivity|].
  split; [reflexivity|].
  intros H.
  destruct (H (answering a_recording) (initial_world []) "a/b" a_recording
              eq_refl eq_refl) as [path Hp].
  discriminate Hp.
Qed.

(** C9.  The four clients never change the state of the voice session
    controller: whatever the response, and whether the call returns or
    raises, the handle and the flag are those of before, and no call has
    been made on the SDK. *)
Theorem clients_preserve_session env w i :
  (session (exec (get_conversations env) w) = session w /\
   sdk_log (exec (get_conversations env) w) = sdk_log w) /\
  (session (exec (get_messages env i) w) = session w /\
   sdk_log (exec (get_messages env i) w) = sdk_log w) /\
  (session (exec (get_audio env i) w) = session w /\
   sdk_log (exec (get_audio env i) w) = sdk_log w) /\
  (session (exec (delete_conversation env i) w) = session w /\
   sdk_log (exec (delete_conversation env i) w) = sdk_log w).
Proof.
  assert (H : forall w', same_controller w w' ->
                         session w' = session w /\ sdk_log w' = sdk_log w).
  { intros w' (C & F & _ & L & _). unfold session. now rewrite C, F, L. }
  split; [|split; [|split]]; apply H.
  - apply get_conversations_frame.
  - apply get_messages_frame.
  - apply get_audio_frame.
  - apply delete_conversation_frame.
Qed.

(** ** Further properties of the clients *)

Lemma pure_ret {A} (a : A) : pure (ret a).
Proof. intros w. reflexivity. Qed.

Lemma pure_raise {A} e : pure (@raise A e).
Proof. intros w. reflexivity. Qed.

Lemma pure_lift {A} (r : result A) : pure (lift r).
Proof. intros w. reflexivity. Qed.

Lemma pure_response_json r : pure (response_json r).
Proof. unfold response_json. destruct (json_body r); intros w; reflexivity. Qed.

Lemma pure_if {A} (b : bool) (m1 m2 : M A) :
  pure m1 -> pure m2 -> pure (if b then m1 else m2).
Proof. now destruct b. Qed.

Lemma pure_bind {A B} (m : M A) (k : A -> M B) :
  pure m -> (forall a, pure (k a)) -> pure (bind m k).
Proof.
  intros Hm Hk w. specialize (Hm w). unfold exec, bind in *.
  destruct (m w) as [[a|e] w']; simpl in *; subst w'.
  - apply Hk.
  - reflexivity.
Qed.

(** What follows a computation, when it is pure, leaves the world that
    computation left. *)
Lemma exec_bind_pure {A B} (m : M A) (k : A -> M B) w :
  (forall a, pure (k a)) -> exec (bind m k) w = exec m w.
Proof.
  intros Hk. unfold exec, bind.
  destruct (m w) as [[a|e] w'] eqn:E; simpl; [apply Hk | reflexivity].
Qed.

Create HintDb purity.
#[local] Hint Resolve pure_ret pure_raise pure_lift pure_response_json
  : purity.

Ltac purity :=
  repeat first
    [ apply pure_bind; [| intros ? ]
    | apply pure_if
    | solve [ auto with purity ] ].

Lemma exec_requests_send env req w :
  exec (requests_send env req) w = requested req w.
Proof. reflexivity. Qed.

(** X1.  Each client issues exactly one request, however it ends.  The
    list, the transcript and the delete clients change nothing else in
    the world; the audio client changes nothing else, or writes exactly
    the one file named after the conversation. *)
Theorem clients_issue_one_request env w i :
  exec (get_conversations env) w = requested (conversations_request env) w /\
  exec (get_messages env i) w = requested (messages_request env i) w /\
  exec (delete_conversation env i) w = requested (delete_request env i) w /\
  (exec (get_audio env i) w = requested (audio_request env i) w \/
   exists audio,
     exec (get_audio env i) w
     = exec (write_file (audio_file_path i) (to_wav env audio))
            (requested (audio_request env i) w)).
Proof.
  split; [|split; [|split]].
  - unfold get_conversations. rewrite exec_bind_pure; [reflexivity|].
    intros r. purity.
  - unfold get_messages. rewrite exec_bind_pure; [reflexivity|].
    intros r. purity.
  - unfold delete_conversation. rewrite exec_bind_pure; [reflexivity|].
    intros r. purity.
  - unfold get_audio, exec, bind, requests_send. fold (requested (audio_request env i) w).
    destruct (send env (http_log w) (audio_request env i)) as [r|e];
      [|now left].
    destruct (status_code r =? 200)%Z; [|now left].
    unfold lift. destruct (from_mp3 env (content r)) as [audio|e];
      [|now left].
    unfold export. simpl.
    destruct (export_raises env (files w) (audio_file_path i));
      [now left|].
    right. exists audio. reflexivity.
Qed.

(** X2.  An exception of the transport is not caught: when the request
    raises, each of the four clients raises the same exception, and the
    audio client has written no file. *)
Theorem transport_errors_propagate env w i e :
  (send env (http_log w) (conversations_request env) = Raise e ->
   outcome (get_conversations env) w = Raise e) /\
  (send env (http_log w) (messages_request env i) = Raise e ->
   outcome (get_messages env i) w = Raise e) /\
  (send env (http_log w) (delete_request env i) = Raise e ->
   outcome (delete_conversation env i) w = Raise e) /\
  (send env (http_log w) (audio_request env i) = Raise e ->
   outcome (get_audio env i) w = Raise e /\
   files (exec (get_audio env i) w) = files w).
Proof.
  unfold get_conversations, get_messages, delete_conversation, get_audio,
    outcome, exec, bind, requests_send.
  split; [|split; [|split]]; intros Hs; rewrite Hs; auto.
Qed.

(** X2 with a service that cannot be reached. *)
Lemma transport_errors_propagate_witness :
  outcome (get_conversations unreachable) (initial_world [])
  = Raise (RequestException "connection refused") /\
  outcome (get_messages unreachable "c1") (initial_world [])
  = Raise (RequestException "connection refused") /\
  outcome (delete_conversation unreachable "c1") (initial_world [])
  = Raise (RequestException "connection refused") /\
  outcome (get_audio unreachable "c1") (initial_world [])
  = Raise (RequestException "connection refused").
Proof.
  destruct (transport_errors_propagate unreachable (initial_world []) "c1"
              (RequestException "connection refused"))
    as (H1 & H2 & H3 & H4).
  split; [exact (H1 eq_refl)|]. split; [exact (H2 eq_refl)|].
  split; [exact (H3 eq_refl)|]. exact (proj1 (H4 eq_refl)).
Defined.

(** X3.  A 200 response whose body is not JSON is not failed soft: the
    list and the transcript clients raise [JSONDecodeError]. *)
Theorem non_json_body_raises env w i r :
  status_code r = 200%Z ->
  json_body r = None ->
  (send env (http_log w) (conversations_request env) = Ok r ->
   outcome (get_conversations env) w = Raise JSONDecodeError) /\
  (send env (http_log w) (messages_request env i) = Ok r ->
   outcome (get_messages env i) w = Raise JSONDecodeError).
Proof.
  intros H200 Hb. split; intros Hs.
  - now rewrite (get_conversations_of_response _ _ _ Hs),
      (status_success _ H200), Hb.
  - now rewrite (get_messages_of_response _ _ _ _ Hs),
      (status_success _ H200), Hb.
Qed.

(** X3 on a 200 that delivers bytes which are not JSON. *)
Lemma non_json_body_raises_witness :
  outcome (get_conversations (answering some_mp3)) (initial_world [])
  = Raise JSONDecodeError /\
  outcome (get_messages (answering some_mp3) "c1") (initial_world [])
  = Raise JSONDecodeError.
Proof.
  destruct (non_json_body_raises (answering some_mp3) (initial_world []) "c1"
              some_mp3 eq_refl eq_refl) as [H1 H2].
  split; [exact (H1 eq_refl) | exact (H2 eq_refl)].
Defined.

(** X4.  A 200 response whose content the decoder rejects: the audio
    client raises the decoder's exception and writes no file. *)
Theorem get_audio_decode_failure env w i r e :
  send env (http_log w) (audio_request env i) = Ok r ->
  status_code r = 200%Z ->
  from_mp3 env (content r) = Raise e ->
  outcome (get_audio env i) w = Raise e /\
  files (exec (get_audio env i) w) = files w.
Proof.
  intros Hs H200 Hd. unfold get_audio, outcome, exec, bind, requests_send.
  rewrite Hs, (status_success _ H200). unfold lift. rewrite Hd. now split.
Qed.

Lemma get_audio_decode_failure_witness :
  outcome (get_audio (undecodable some_mp3) "c1") (initial_world [])
  = Raise CouldntDecodeError /\
  files (exec (get_audio (undecodable some_mp3) "c1") (initial_world [])) = [].
Proof.
  exact (get_audio_decode_failure (undecodable some_mp3) (initial_world [])
           "c1" some_mp3 CouldntDecodeError eq_refl eq_refl eq_refl).
Defined.

(** A comprehension that returns has found the key in every entry. *)
Lemma comprehension_Ok_inv key entries : forall values,
  Py.comprehension (fun e => Py.getitem e key) entries = Ok values ->
  Forall2 (fun e v =>
             exists fields, e = JDict fields /\ dict_get key fields = Some v)
          entries values.
Proof.
  induction entries as [|e es IH]; intros values H; simpl in H.
  - injection H as <-. constructor.
  - destruct (Py.getitem e key) as [v|x] eqn:G; [|discriminate].
    destruct (Py.comprehension _ es) as [vs|x]; [|discriminate].
    injection H as <-. constructor; [|now apply IH].
    destruct e; simpl in G; try discriminate.
    exists entries. split; [reflexivity|].
    destruct (dict_get key entries); [now injection G as -> | discriminate].
Qed.

(** A comprehension that raises does so with [KeyError] on the key, or
    with [TypeError]. *)
Lemma comprehension_Raise_inv key entries e :
  Py.comprehension (fun e => Py.getitem e key) entries = Raise e ->
  e = KeyError key \/ e = TypeError.
Proof.
  induction entries as [|x xs IH]; simpl; [discriminate|].
  destruct (Py.getitem x key) as [v|x'] eqn:G.
  - destruct (Py.comprehension _ xs) as [vs|x']; [discriminate|].
    intros H. injection H as <-. now apply IH.
  - intros H. injection H as <-.
    destruct x; simpl in G; try (injection G as <-; now right).
    destruct (dict_get key entries); [discriminate|].
    injection G as <-. now left.
Qed.

(** X5.  On a 200 response whose body is an object with a
    [conversations] array, [get_conversations] returns exactly when
    every entry is an object that carries [conversation_id], and then
    with one value per entry; in every other case it raises
    [KeyError] on that key or [TypeError]. *)
Theorem get_conversations_returns_iff env w r fields entries :
  send env (http_log w) (conversations_request env) = Ok r ->
  status_code r = 200%Z ->
  json_body r = Some (JDict fields) ->
  dict_get "conversations" fields = Some (JList entries) ->
  (forall ids,
     outcome (get_conversations env) w = Ok ids <->
     Forall2 carries_id entries ids) /\
  (forall ids,
     outcome (get_conversations env) w = Ok ids ->
     List.length ids = List.length entries) /\
  (forall e,
     outcome (get_conversations env) w = Raise e ->
     e = KeyError "conversation_id" \/ e = TypeError).
Proof.
  intros Hs H200 Hb Hc.
  rewrite (get_conversations_of_response _ _ _ Hs), (status_success _ H200),
    Hb, Hc. simpl.
  split; [|split].
  - intros ids. split.
    + apply comprehension_Ok_inv.
    + apply comprehension_Forall2.
  - intros ids H. apply comprehension_Ok_inv in H.
    symmetry. exact (Forall2_length H).
  - intros e. apply comprehension_Raise_inv.
Qed.

Lemma get_conversations_returns_iff_witness :
  (outcome (get_conversations (answering (ok_json two_conversations)))
           (initial_world []) = Ok [JStr "a1"; JStr "b2"] ->
   Forall2 carries_id
           [JDict [("conversation_id", JStr "a1")];
            JDict [("conversation_id", JStr "b2")]]
           [JStr "a1"; JStr "b2"]) /\
  (KeyError "conversation_id" = KeyError "conversation_id" \/
   KeyError "conversation_id" = TypeError).
Proof.
  split.
  - exact (proj1 (proj1 (get_conversations_returns_iff
                           (answering (ok_json two_conversations))
                           (initial_world []) (ok_json two_conversations)
                           _ _ eq_refl eq_refl eq_refl eq_refl)
                        [JStr "a1"; JStr "b2"])).
  - exact (proj2 (proj2 (get_conversations_returns_iff
                           (answering (ok_json entry_without_id))
                           (initial_world []) (ok_json entry_without_id)
                           _ _ eq_refl eq_refl eq_refl eq_refl))
                 (KeyError "conversation_id") eq_refl).
Defined.

(** X6.  On a 200 response whose body is an object with a [transcript]
    array, [get_messages] returns exactly when every entry is an object
    that carries [message], and then with one value per entry; in every
    other case it raises [KeyError] on that key or [TypeError]. *)
Theorem get_messages_returns_iff env w i r fields entries :
  send env (http_log w) (messages_request env i) = Ok r ->
  status_code r = 200%Z ->
  json_body r = Some (JDict fields) ->
  dict_get "transcript" fields = Some (JList entries) ->
  (forall msgs,
     outcome (get_messages env i) w = Ok msgs <->
     Forall2 carries_message entries msgs) /\
  (forall msgs,
     outcome (get_messages env i) w = Ok msgs ->
     List.length msgs = List.length entries) /\
  (forall e,
     outcome (get_messages env i) w = Raise e ->
     e = KeyError "message" \/ e = TypeError).
Proof.
  intros Hs H200 Hb Hc.
  rewrite (get_messages_of_response _ _ _ _ Hs), (status_success _ H200), Hb.
  simpl. unfold dict_has. rewrite Hc. simpl.
  split; [|split].
  - intros msgs. split.
    + apply comprehension_Ok_inv.
    + apply comprehension_Forall2.
  - intros msgs H. apply comprehension_Ok_inv in H.
    symmetry. exact (Forall2_length H).
  - intros e. apply comprehension_Raise_inv.
Qed.

Lemma get_messages_returns_iff_witness :
  (outcome (get_messages (answering (ok_json hi_bye)) "c1") (initial_world [])
   = Ok [JStr "hi"; JStr "bye"] ->
   List.length [JStr "hi"; JStr "bye"] = 2) /\
  (KeyError "message" = KeyError "message" \/ KeyError "message" = TypeError).
Proof.
  split.
  - exact (proj1 (proj2 (get_messages_returns_iff (answering (ok_json hi_bye))
                           (initial_world []) "c1" (ok_json hi_bye)
                           _ _ eq_refl eq_refl eq_refl eq_refl))
                 [JStr "hi"; JStr "bye"]).
  - exact (proj2 (proj2 (get_messages_returns_iff
                           (answering (ok_json entry_without_message))
                           (initial_world []) "c1"
                           (ok_json entry_without_message)
                           _ _ eq_refl eq_refl eq_refl eq_refl))
                 (KeyError "message") eq_refl).
Defined.

(** X7.  When the [conversations] field of a 200 body is not an array,
    [get_conversations] does not fail soft: it raises [TypeError],
    except on an empty object and an empty string, whose iteration
    visits nothing and gives the empty list. *)
Theorem get_conversations_non_list_field env w r fields v :
  send env (http_log w) (conversations_request env) = Ok r ->
  status_code r = 200%Z ->
  json_body r = Some (JDict fields) ->
  dict_get "conversations" fields = Some v ->
  (forall entries, v <> JList entries) ->
  outcome (get_conversations env) w =
  match v with
  | JDict [] => Ok []
  | JStr EmptyString => Ok []
  | _ => Raise TypeError
  end.
Proof.
  intros Hs H200 Hb Hc Hv.
  rewrite (get_conversations_of_response _ _ _ Hs), (status_success _ H200),
    Hb, Hc.
  destruct v as [| | | |s|l|d]; try reflexivity.
  - now destruct s.
  - now destruct (Hv l).
  - now destruct d as [|[k x] d].
Qed.

(** X7 on [{"conversations": null}] and [{"conversations": {}}]. *)
Lemma get_conversations_non_list_field_witness :
  outcome (get_conversations
             (answering (ok_json (JDict [("conversations", JNull)]))))
          (initial_world []) = Raise TypeError /\
  outcome (get_conversations
             (answering (ok_json (JDict [("conversations", JDict [])]))))
          (initial_world []) = Ok [].
Proof.
  split.
  - apply (get_conversations_non_list_field
             (answering (ok_json (JDict [("conversations", JNull)])))
             (initial_world []) _ _ JNull eq_refl eq_refl eq_refl eq_refl).
    discriminate.
  - apply (get_conversations_non_list_field
             (answering (ok_json (JDict [("conversations", JDict [])])))
             (initial_world []) _ _ (JDict []) eq_refl eq_refl eq_refl eq_refl).
    discriminate.
Defined.

(** X8.  [get_messages] tests [in] on whatever was decoded.  On a 200
    body that is not an object: an array gives the placeholder unless
    one of its elements is the string [transcript], a string gives the
    placeholder unless it contains [transcript]; in those two cases,
    and on null, a boolean or a number, the call raises [TypeError]. *)
Theorem get_messages_non_object_body env w i r v :
  send env (http_log w) (messages_request env i) = Ok r ->
  status_code r = 200%Z ->
  json_body r = Some v ->
  Py.is_dict v = false ->
  outcome (get_messages env i) w =
  match v with
  | JList l =>
      if existsb (Py.is_str_eq "transcript") l
      then Raise TypeError else Ok [JStr no_messages]
  | JStr s =>
      if PyStr.contains "transcript" s
      then Raise TypeError else Ok [JStr no_messages]
  | _ => Raise TypeError
  end.
Proof.
  intros Hs H200 Hb Hd.
  rewrite (get_messages_of_response _ _ _ _ Hs), (status_success _ H200), Hb.
  destruct v; try reflexivity. discriminate Hd.
Qed.

(** X8 on the bodies [[]], ["no transcript yet"] and [null]. *)
Lemma get_messages_non_object_body_witness :
  outcome (get_messages (answering (ok_json (JList []))) "c1")
          (initial_world []) = Ok [JStr no_messages] /\
  outcome (get_messages (answering (ok_json (JStr "no transcript yet"))) "c1")
          (initial_world []) = Raise TypeError /\
  outcome (get_messages (answering (ok_json JNull)) "c1")
          (initial_world []) = Raise TypeError.
Proof.
  split; [|split].
  - exact (get_messages_non_object_body (answering (ok_json (JList [])))
             (initial_world []) "c1" _ (JList []) eq_refl eq_refl eq_refl
             eq_refl).
  - exact (get_messages_non_object_body
             (answering (ok_json (JStr "no transcript yet")))
             (initial_world []) "c1" _ (JStr "no transcript yet")
             eq_refl eq_refl eq_refl eq_refl).
  - exact (get_messages_non_object_body (answering (ok_json JNull))
             (initial_world []) "c1" _ JNull eq_refl eq_refl eq_refl eq_refl).
Defined.

(** What [get_audio] does to the files. *)
Lemma get_audio_files env w i :
  files (exec (get_audio env i) w) = files w \/
  exists audio,
    files (exec (get_audio env i) w)
    = (audio_file_path i, to_wav env audio) :: files w.
Proof.
  unfold get_audio, exec, bind, requests_send.
  destruct (send env (http_log w) (audio_request env i)) as [r|e];
    [|now left].
  destruct (status_code r =? 200)%Z; [|now left].
  unfold lift. destruct (from_mp3 env (content r)) as [audio|e];
    [|now left].
  unfold export. simpl.
  destruct (export_raises env (files w) (audio_file_path i)); [now left|].
  right. now exists audio.
Qed.

(** A fetch that returns a path has written the file. *)
Lemma get_audio_returned env w i p :
  outcome (get_audio env i) w = Ok (Some p) ->
  exists audio,
    files (exec (get_audio env i) w)
    = (audio_file_path i, to_wav env audio) :: files w.
Proof.
  unfold get_audio, outcome, exec, bind, requests_send.
  destruct (send env (http_log w) (audio_request env i)) as [r|e];
    [|discriminate].
  destruct (status_code r =? 200)%Z; [|discriminate].
  unfold lift. destruct (from_mp3 env (content r)) as [audio|e];
    [|discriminate].
  unfold export. simpl.
  destruct (export_raises env (files w) (audio_file_path i));
    [discriminate|].
  intros _. now exists audio.
Qed.

(** X9.  Fetching the audio of a conversation touches no file but the
    one its path denotes: a name that denotes another file reads as
    before.  Names are not files: after a fetch that returns, every
    name of the file that [<id>_audio.wav] denotes reads the new audio,
    so that two identifiers whose file names denote one file, as [c1]
    and [./c1] do, overwrite each other's audio. *)
Theorem get_audio_keeps_other_files env w i :
  (forall path,
     realpath env path <> realpath env (audio_file_path i) ->
     read_file (realpath env) path (files (exec (get_audio env i) w))
     = read_file (realpath env) path (files w)) /\
  (forall path p,
     outcome (get_audio env i) w = Ok (Some p) ->
     realpath env path = realpath env (audio_file_path i) ->
     exists audio,
       read_file (realpath env) path (files (exec (get_audio env i) w))
       = Some (to_wav env audio) /\
       files (exec (get_audio env i) w)
       = (audio_file_path i, to_wav env audio) :: files w).
Proof.
  split.
  - intros path Hp. destruct (get_audio_files env w i) as [E|[audio E]];
      rewrite E; [reflexivity|].
    simpl. apply String.eqb_neq in Hp. now rewrite Hp.
  - intros path p Hret Hp. destruct (get_audio_returned _ _ _ _ Hret)
      as [audio E].
    exists audio. rewrite E. split; [|reflexivity].
    simpl. now rewrite Hp, String.eqb_refl.
Qed.

(** X9: with the audio of [c1] on file, the audio of [c2] is fetched,
    and then that of [./c1]. *)
Lemma get_audio_keeps_other_files_witness :
  read_file flat_realpath "c1_audio.wav"
            (files (exec (get_audio (answering a_recording) "c2")
                         (initial_world [("c1_audio.wav", [Byte.x01])])))
  = Some [Byte.x01] /\
  (exists audio,
     read_file flat_realpath "c1_audio.wav"
               (files (exec (get_audio (answering a_recording) "./c1")
                            (initial_world [("c1_audio.wav", [Byte.x01])])))
     = Some (encode_wav audio) /\
     files (exec (get_audio (answering a_recording) "./c1")
                 (initial_world [("c1_audio.wav", [Byte.x01])]))
     = [("./c1_audio.wav", encode_wav audio); ("c1_audio.wav", [Byte.x01])]).
Proof.
  split.
  - assert (Hother : realpath (answering a_recording) "c1_audio.wav"
                     <> realpath (answering a_recording)
                                 (audio_file_path "c2")) by discriminate.
    exact (proj1 (get_audio_keeps_other_files (answering a_recording)
                    (initial_world [("c1_audio.wav", [Byte.x01])]) "c2")
                 "c1_audio.wav" Hother).
  - exact (proj2 (get_audio_keeps_other_files (answering a_recording)
                    (initial_world [("c1_audio.wav", [Byte.x01])]) "./c1")
                 "c1_audio.wav" "./c1_audio.wav" eq_refl eq_refl).
Defined.

(** ** Further properties of the voice session *)

Lemma session_step_same env w w' : same_controller w w' -> session_step env w w'.
Proof.
  intros (C & _ & N & L & _). exists []. rewrite app_nil_r, N.
  repeat split; auto. intros h [].
Qed.

Lemma session_step_stop env w :
  session_step env w (exec (stop_conversation env) w).
Proof.
  destruct (conversation w) as [h|] eqn:E; unfold exec.
  - rewrite (stop_with_handle _ _ _ E). exists [StopSession h].
    destruct (sdk_raises env (sdk_log w) (StopSession h)); simpl;
      (split; [reflexivity|]); (split; [|split; [now left | lia]]);
      intros h' [H|[]]; now injection H as <-.
  - rewrite (stop_without_handle _ _ E). exists []. simpl.
    rewrite app_nil_r. repeat split; auto. intros h [].
Qed.

Lemma session_step_start env w :
  session_step env w (exec (start_conversation env) w).
Proof.
  unfold exec. rewrite start_cases. cbv zeta.
  destruct (sdk_raises env (sdk_log w) _).
  - exists [construction env (next_handle w)]. simpl.
    split; [reflexivity|]. split; [|split; [now left | lia]].
    intros h [H|[]]. discriminate H.
  - exists [construction env (next_handle w); StartSession (next_handle w)].
    destruct (sdk_raises env _ (StartSession _)); simpl;
      (split; [reflexivity|]);
      (split; [|split; [right; repeat split; now left | lia]]);
      intros h [H|[H|[]]]; discriminate H.
Qed.

Lemma session_step_write env text w :
  session_step env w (exec (st_write text) w).
Proof.
  exists []. simpl. rewrite app_nil_r. repeat split; auto. intros h [].
Qed.

Lemma session_step_refl env w : session_step env w w.
Proof.
  exists []. rewrite app_nil_r. repeat split; auto. intros h [].
Qed.

Lemma session_step_run_op env o w : session_step env w (run_op env o w).
Proof.
  destruct o as [| |t|button| |i|i|i]; simpl.
  - apply session_step_start.
  - apply session_step_stop.
  - unfold exec. rewrite utterance_cases.
    destruct (String.eqb _ "stop").
    + exact (session_step_stop env (exec (st_write ("**User:** " ++ t)) w)).
    + apply session_step_write.
  - unfold exec. destruct (agent_running w) eqn:R.
    + rewrite (menu_when_running _ _ _ R). destruct (button _).
      * exact (session_step_stop env
                 (exec (st_write "**Agent is already running**") w)).
      * apply session_step_write.
    + rewrite (menu_when_idle _ _ _ R). destruct (button _).
      * pose proof (session_step_start env w) as H. unfold exec, bind in *.
        destruct (start_conversation env w) as [[[]|e] w']; exact H.
      * apply session_step_refl.
  - apply session_step_same, get_conversations_frame.
  - apply session_step_same, get_messages_frame.
  - apply session_step_same, get_audio_frame.
  - apply session_step_same, delete_conversation_frame.
Qed.

Lemma stop_calls_app h l1 l2 :
  stop_calls h (l1 ++ l2) = stop_calls h l1 + stop_calls h l2.
Proof. unfold stop_calls. now rewrite filter_app, length_app. Qed.

Lemma stop_calls_none h evs :
  ~ In (StopSession h) evs -> stop_calls h evs = 0.
Proof.
  unfold stop_calls. induction evs as [|ev evs IH]; intros H; simpl.
  - reflexivity.
  - destruct (is_stop_of h ev) eqn:E.
    + destruct ev; simpl in E; try discriminate.
      apply Nat.eqb_eq in E. subst. exfalso. apply H. now left.
    + apply IH. intros H'. apply H. now right.
Qed.

(** X10.  A session that has been replaced is never stopped.  Once the
    global is not bound to an object the SDK has constructed, because a
    later start has rebound it, no run of the program calls
    [stop_session] on that object again. *)
Theorem replaced_session_is_never_stopped env os : forall w h,
  h < next_handle w ->
  conversation w <> Some h ->
  stop_calls h (sdk_log (run_ops env os w)) = stop_calls h (sdk_log w).
Proof.
  unfold run_ops. induction os as [|o os IH]; intros w h Hlt Hne; simpl.
  - reflexivity.
  - destruct (session_step_run_op env o w) as (evs & L & S & C & N).
    rewrite IH.
    + rewrite L, stop_calls_app, (stop_calls_none h evs); [lia|].
      intros H. now apply Hne, S.
    + lia.
    + destruct C as [C|(C & _)]; rewrite C; [exact Hne|].
      intros H. injection H as H. lia.
Qed.

(** X10 on a run: two starts, then every way the program has to stop. *)
Lemma replaced_session_is_never_stopped_witness :
  conversation (run_ops quiet [OpStart; OpStart] (initial_world [])) = Some 1 /\
  stop_calls 0
    (sdk_log (run_ops quiet
                [OpStop; OpUtterance "stop"; OpMenu (fun _ => true); OpStop]
                (run_ops quiet [OpStart; OpStart] (initial_world []))))
  = 0.
Proof.
  split; [reflexivity|].
  rewrite (replaced_session_is_never_stopped quiet
             [OpStop; OpUtterance "stop"; OpMenu (fun _ => true); OpStop]
             (run_ops quiet [OpStart; OpStart] (initial_world [])) 0).
  - reflexivity.
  - simpl. lia.
  - discriminate.
Defined.

(** Every call keeps the global bound to an object that exists. *)
Lemma allocated_run_op env o w : allocated w -> allocated (run_op env o w).
Proof.
  intros A h E.
  destruct (session_step_run_op env o w) as (evs & _ & _ & C & N).
  destruct C as [C|(C & N' & _)]; rewrite C in E.
  - specialize (A h E). lia.
  - injection E as <-. lia.
Qed.

(** So does any sequence of calls, from the initial state on. *)
Lemma allocated_run_ops env os fs : allocated (run_ops env os (initial_world fs)).
Proof.
  assert (H : forall w, allocated w -> allocated (run_ops env os w)).
  { unfold run_ops. induction os as [|o os IH]; intros w A; simpl.
    - exact A.
    - apply IH. now apply allocated_run_op. }
  apply H. intros h E. discriminate E.
Qed.

(** X11.  Executing the script again unbinds a running session.  The
    top level of the module rebinds the global to [None] and leaves the
    flag and the SDK alone, so that a session started in an earlier
    execution is Running with no handle bound.  There
    [stop_conversation], the stop before browsing and the stop button
    of the menu do nothing: no call on the SDK, the flag still set.
    The global stays bound to nothing or to an object that exists. *)
Theorem rerun_unbinds_running_session env w :
  conversation (exec module_top_level w) = None /\
  agent_running (exec module_top_level w) = agent_running w /\
  sdk_log (exec module_top_level w) = sdk_log w /\
  allocated (exec module_top_level w) /\
  stop_conversation env (exec module_top_level w)
  = (Ok tt, exec module_top_level w) /\
  stop_if_running env (exec module_top_level w)
  = (Ok tt, exec module_top_level w) /\
  (Running w ->
   forall button,
     button "Stop Agensense" = true ->
     main_start_service env button (exec module_top_level w)
     = (Ok tt,
        exec (st_write "**Agent is already running**")
             (exec module_top_level w)) /\
     Running (exec (main_start_service env button)
                   (exec module_top_level w)) /\
     sdk_log (exec (main_start_service env button)
                   (exec module_top_level w)) = sdk_log w).
Proof.
  assert (Hstop : stop_conversation env (exec module_top_level w)
                  = (Ok tt, exec module_top_level w))
    by (now apply stop_without_handle).
  split; [reflexivity|]. split; [reflexivity|]. split; [reflexivity|].
  split; [intros h E; discriminate E|]. split; [exact Hstop|]. split.
  - unfold stop_if_running.
    destruct (agent_running (exec module_top_level w)); [exact Hstop|].
    reflexivity.
  - intros R button Hb.
    assert (Hm : main_start_service env button (exec module_top_level w)
                 = (Ok tt,
                    exec (st_write "**Agent is already running**")
                         (exec module_top_level w))).
    { rewrite (menu_when_running env button (exec module_top_level w) R), Hb.
      now apply stop_without_handle. }
    split; [exact Hm|]. unfold exec at 1 3. rewrite Hm. split; [exact R|].
    reflexivity.
Qed.

(** X11: a session is started, and the script executed again. *)
Lemma rerun_unbinds_running_session_witness :
  Running started_world /\
  session (exec module_top_level started_world) = (None, true) /\
  Running (exec (main_start_service quiet (fun _ => true))
                (exec module_top_level started_world)) /\
  sdk_log (exec (main_start_service quiet (fun _ => true))
                (exec module_top_level started_world))
  = [NewConversation 0 "agent" true; StartSession 0].
Proof.
  destruct (rerun_unbinds_running_session quiet started_world)
    as (_ & _ & _ & _ & _ & _ & H).
  destruct (H eq_refl (fun _ => true) eq_refl) as (_ & R & L).
  split; [reflexivity|]. split; [reflexivity|]. split; [exact R | exact L].
Defined.

(** X12.  How a start fails.  When the constructor raises, the start
    raises and the session state is as before.  When [start_session]
    raises, the start raises with the global already bound to the new
    object and the flag as it was: after a failed start from Idle the
    state is Idle with a handle bound, and the next stop calls
    [stop_session] on the object whose session did not start. *)
Theorem start_failure_modes env w e :
  (sdk_raises env (sdk_log w) (construction env (next_handle w)) = Some e ->
   outcome (start_conversation env) w = Raise e /\
   session (exec (start_conversation env) w) = session w) /\
  (sdk_raises env (sdk_log w) (construction env (next_handle w)) = None ->
   sdk_raises env (sdk_log w ++ [construction env (next_handle w)])
              (StartSession (next_handle w)) = Some e ->
   outcome (start_conversation env) w = Raise e /\
   conversation (exec (start_conversation env) w) = Some (next_handle w) /\
   agent_running (exec (start_conversation env) w) = agent_running w /\
   sdk_log (exec (stop_conversation env) (exec (start_conversation env) w))
   = (sdk_log w ++ [construction env (next_handle w);
                    StartSession (next_handle w);
                    StopSession (next_handle w)])%list).
Proof.
  split.
  - intros E1. unfold outcome, exec. rewrite start_cases. cbv zeta.
    now rewrite E1.
  - intros E1 E2.
    assert (Hs : start_conversation env w =
                 (Raise e,
                  mkWorld (Some (next_handle w)) (agent_running w)
                          (S (next_handle w))
                          (sdk_log w ++ [construction env (next_handle w)]
                                   ++ [StartSession (next_handle w)])
                          (http_log w) (page w) (files w)))
      by (rewrite start_cases; cbv zeta; now rewrite E1, E2).
    unfold outcome. unfold exec at 1 2 4. rewrite Hs. simpl.
    repeat split.
    unfold exec. erewrite stop_with_handle by reflexivity.
    destruct (sdk_raises env _ (StopSession _)); simpl;
      now rewrite <- app_assoc.
Qed.

(** X12 with an SDK that has no audio device, and with one that rejects
    the credentials when the session is started. *)
Lemma start_failure_modes_witness :
  outcome (start_conversation no_audio_device) (initial_world [])
  = Raise (SdkError "no device") /\
  session (exec (start_conversation no_audio_device) (initial_world []))
  = (None, false) /\
  outcome (start_conversation rejecting) (initial_world [])
  = Raise (SdkError "unauthorized") /\
  session (exec (start_conversation rejecting) (initial_world []))
  = (Some 0, false) /\
  sdk_log (exec (stop_conversation rejecting)
                (exec (start_conversation rejecting) (initial_world [])))
  = [NewConversation 0 "agent" true; StartSession 0; StopSession 0].
Proof.
  destruct (proj1 (start_failure_modes no_audio_device (initial_world [])
                     (SdkError "no device")) eq_refl) as [A1 A2].
  destruct (proj2 (start_failure_modes rejecting (initial_world [])
                     (SdkError "unauthorized")) eq_refl eq_refl)
    as (B1 & B2 & B3 & B4).
  split; [exact A1|]. split; [exact A2|]. split; [exact B1|].
  split; [|exact B4]. unfold session. now rewrite B2, B3.
Defined.

(** ** The normalisation of an utterance *)

Lemma all_space_app a b :
  all_space (a ++ b) = all_space a && all_space b.
Proof.
  induction a as [|c a IH]; simpl; [reflexivity|].
  now rewrite IH, andb_assoc.
Qed.

Lemma lstrip_all_space s : all_space s = true -> PyStr.lstrip s = "".
Proof.
  induction s as [|c s IH]; simpl; [reflexivity|].
  intros H. apply andb_prop in H. destruct H as [Hc Hs].
  rewrite Hc. now apply IH.
Qed.

Lemma rstrip_all_space s : all_space s = true -> PyStr.rstrip s = "".
Proof.
  induction s as [|c s IH]; simpl; [reflexivity|].
  intros H. apply andb_prop in H. destruct H as [Hc Hs].
  now rewrite (IH Hs), Hc.
Qed.

Lemma lstrip_decompose s :
  exists pre, s = pre ++ PyStr.lstrip s /\ all_space pre = true.
Proof.
  induction s as [|c s (pre & E & H)]; simpl.
  - now exists "".
  - destruct (PyStr.isspace c) eqn:Hc.
    + exists (String c pre). simpl. rewrite Hc, H. now rewrite <- E.
    + now exists "".
Qed.

Lemma rstrip_decompose s :
  exists post, s = PyStr.rstrip s ++ post /\ all_space post = true.
Proof.
  induction s as [|c s (post & E & H)]; simpl.
  - now exists "".
  - destruct (PyStr.rstrip s) as [|d r] eqn:R.
    + simpl in E. subst s. destruct (PyStr.isspace c) eqn:Hc.
      * exists (String c post). simpl. now rewrite Hc, H.
      * now exists post.
    + exists post. simpl. split; [|exact H]. f_equal. exact E.
Qed.

(** A left-stripped string does not begin with whitespace. *)
Lemma lstrip_head s c r :
  PyStr.lstrip s = String c r -> PyStr.isspace c = false.
Proof.
  induction s as [|d s IH]; simpl; [discriminate|].
  destruct (PyStr.isspace d) eqn:Hd; [exact IH|].
  intros H. now injection H as <- _.
Qed.

Lemma lstrip_fixed s :
  (forall c r, s = String c r -> PyStr.isspace c = false) ->
  PyStr.lstrip s = s.
Proof.
  destruct s as [|c r]; intros H; simpl; [reflexivity|].
  now rewrite (H c r eq_refl).
Qed.

Lemma lstrip_idempotent s : PyStr.lstrip (PyStr.lstrip s) = PyStr.lstrip s.
Proof.
  apply lstrip_fixed. intros c r. apply lstrip_head.
Qed.

Lemma rstrip_app_space s post :
  all_space post = true -> PyStr.rstrip (s ++ post) = PyStr.rstrip s.
Proof.
  intros H. induction s as [|c s IH]; simpl.
  - now apply rstrip_all_space.
  - now rewrite IH.
Qed.

Lemma rstrip_idempotent s : PyStr.rstrip (PyStr.rstrip s) = PyStr.rstrip s.
Proof.
  induction s as [|c s IH]; simpl; [reflexivity|].
  destruct (PyStr.rstrip s) as [|d r] eqn:R.
  - destruct (PyStr.isspace c) eqn:Hc; simpl; [reflexivity|].
    now rewrite Hc.
  - simpl in *. now rewrite IH.
Qed.

Lemma lstrip_app_space pre s :
  all_space pre = true -> PyStr.lstrip (pre ++ s) = PyStr.lstrip s.
Proof.
  induction pre as [|c pre IH]; simpl; [reflexivity|].
  intros H. apply andb_prop in H. destruct H as [Hc Hp].
  rewrite Hc. now apply IH.
Qed.

(** Stripping on the right keeps a string that begins with a character
    that is not whitespace beginning with it. *)
Lemma rstrip_keeps_head c r :
  PyStr.isspace c = false ->
  exists r', PyStr.rstrip (String c r) = String c r'.
Proof.
  intros Hc. simpl. destruct (PyStr.rstrip r); rewrite ?Hc; eauto.
Qed.

Lemma lstrip_rstrip_fixed s :
  PyStr.lstrip s = s -> PyStr.lstrip (PyStr.rstrip s) = PyStr.rstrip s.
Proof.
  intros H. destruct s as [|c r]; [reflexivity|].
  assert (Hc : PyStr.isspace c = false) by (now apply (lstrip_head _ _ _ H)).
  destruct (rstrip_keeps_head c r Hc) as [r' E]. rewrite E. simpl.
  now rewrite Hc.
Qed.

Lemma strip_decompose t :
  exists pre post,
    t = pre ++ PyStr.strip t ++ post /\
    all_space pre = true /\ all_space post = true.
Proof.
  unfold PyStr.strip.
  destruct (lstrip_decompose t) as (pre & E1 & H1).
  destruct (rstrip_decompose (PyStr.lstrip t)) as (post & E2 & H2).
  exists pre, post. split; [|now split].
  now rewrite <- E2.
Qed.

Lemma strip_ends t :
  PyStr.lstrip (PyStr.strip t) = PyStr.strip t /\
  PyStr.rstrip (PyStr.strip t) = PyStr.strip t.
Proof.
  unfold PyStr.strip. split.
  - apply lstrip_rstrip_fixed, lstrip_idempotent.
  - apply rstrip_idempotent.
Qed.

Lemma strip_of_padded pre core post :
  all_space pre = true -> all_space post = true ->
  PyStr.lstrip core = core -> PyStr.rstrip core = core ->
  core <> "" ->
  PyStr.strip (pre ++ core ++ post) = core.
Proof.
  intros Hpre Hpost Hlc Hrc Hne. unfold PyStr.strip.
  rewrite (lstrip_app_space _ _ Hpre).
  destruct core as [|c r]; [now destruct Hne|].
  assert (Hc : PyStr.isspace c = false)
    by (now apply (lstrip_head _ _ _ Hlc)).
  assert (E : PyStr.lstrip (String c r ++ post) = String c r ++ post)
    by (simpl; now rewrite Hc).
  rewrite E, (rstrip_app_space _ _ Hpost). exact Hrc.
Qed.

(** X13.  What [strip] returns: the argument is the result between a
    run of whitespace on each side, and the result neither begins nor
    ends with whitespace, so stripping it again changes nothing.
    Conversely a string that neither begins nor ends with whitespace
    is what [strip] returns from it with whitespace around. *)
Theorem strip_spec t :
  (exists pre post,
     t = pre ++ PyStr.strip t ++ post /\
     all_space pre = true /\ all_space post = true) /\
  PyStr.lstrip (PyStr.strip t) = PyStr.strip t /\
  PyStr.rstrip (PyStr.strip t) = PyStr.strip t /\
  PyStr.strip (PyStr.strip t) = PyStr.strip t /\
  (forall pre core post,
     all_space pre = true -> all_space post = true ->
     PyStr.lstrip core = core -> PyStr.rstrip core = core ->
     core <> "" ->
     PyStr.strip (pre ++ core ++ post) = core).
Proof.
  destruct (strip_ends t) as [Hl Hr].
  split; [apply strip_decompose|]. split; [exact Hl|]. split; [exact Hr|].
  split; [|apply strip_of_padded].
  unfold PyStr.strip at 1. now rewrite Hl, Hr.
Qed.

Lemma strip_spec_witness :
  PyStr.strip ("  " ++ "Stop" ++ "  ") = "Stop".
Proof.
  apply (proj2 (proj2 (proj2 (proj2 (strip_spec ""))))); try reflexivity.
  discriminate.
Defined.

Lemma lower_char_s c :
  PyStr.lower_char c = "s"%char -> c = "s"%char \/ c = "S"%char.
Proof.
  destruct c as [[] [] [] [] [] [] [] []]; vm_compute; intros H;
    try discriminate H; auto.
Qed.

Lemma lower_char_t c :
  PyStr.lower_char c = "t"%char -> c = "t"%char \/ c = "T"%char.
Proof.
  destruct c as [[] [] [] [] [] [] [] []]; vm_compute; intros H;
    try discriminate H; auto.
Qed.

Lemma lower_char_o c :
  PyStr.lower_char c = "o"%char -> c = "o"%char \/ c = "O"%char.
Proof.
  destruct c as [[] [] [] [] [] [] [] []]; vm_compute; intros H;
    try discriminate H; auto.
Qed.

Lemma lower_char_p c :
  PyStr.lower_char c = "p"%char -> c = "p"%char \/ c = "P"%char.
Proof.
  destruct c as [[] [] [] [] [] [] [] []]; vm_compute; intros H;
    try discriminate H; auto.
Qed.

(** X14.  The utterances that stop the session.  Stripped and lowered,
    an utterance is [stop] exactly when it is the four letters s, t, o,
    p, each in either case, with nothing but whitespace before and
    after: [stop.], [please stop] or [s top] do not stop it. *)
Theorem stop_word_characterisation t :
  PyStr.lower (PyStr.strip t) = "stop" <->
  exists pre post c1 c2 c3 c4,
    t = pre ++ String c1 (String c2 (String c3 (String c4 post))) /\
    all_space pre = true /\ all_space post = true /\
    (c1 = "s"%char \/ c1 = "S"%char) /\
    (c2 = "t"%char \/ c2 = "T"%char) /\
    (c3 = "o"%char \/ c3 = "O"%char) /\
    (c4 = "p"%char \/ c4 = "P"%char).
Proof.
  split.
  - intros H. destruct (strip_decompose t) as (pre & post & E & Hpre & Hpost).
    destruct (PyStr.strip t) as [|c1 [|c2 [|c3 [|c4 [|c5 r]]]]];
      try discriminate H.
    simpl in H. injection H as H1 H2 H3 H4.
    exists pre, post, c1, c2, c3, c4. split; [exact E|].
    split; [exact Hpre|]. split; [exact Hpost|].
    split; [now apply lower_char_s|]. split; [now apply lower_char_t|].
    split; [now apply lower_char_o | now apply lower_char_p].
  - intros (pre & post & c1 & c2 & c3 & c4 & E & Hpre & Hpost
            & H1 & H2 & H3 & H4).
    assert (Hs : PyStr.strip t
                 = String c1 (String c2 (String c3 (String c4 "")))).
    { rewrite E.
      change (String c1 (String c2 (String c3 (String c4 post))))
        with (String c1 (String c2 (String c3 (String c4 ""))) ++ post).
      apply strip_of_padded; try assumption; try discriminate;
        destruct H1 as [-> | ->]; destruct H2 as [-> | ->];
        destruct H3 as [-> | ->]; destruct H4 as [-> | ->]; reflexivity. }
    rewrite Hs.
    destruct H1 as [-> | ->]; destruct H2 as [-> | ->];
      destruct H3 as [-> | ->]; destruct H4 as [-> | ->]; reflexivity.
Qed.

(** X14 on an utterance between a tab and a line end, and on one that
    only ends with the word. *)
Lemma stop_word_characterisation_witness :
  PyStr.lower (PyStr.strip (String "009" ("sToP" ++ String "010" ""))) = "stop" /\
  ~ (exists pre post c1 c2 c3 c4,
       "stop." = pre ++ String c1 (String c2 (String c3 (String c4 post))) /\
       all_space pre = true /\ all_space post = true /\
       (c1 = "s"%char \/ c1 = "S"%char) /\
       (c2 = "t"%char \/ c2 = "T"%char) /\
       (c3 = "o"%char \/ c3 = "O"%char) /\
       (c4 = "p"%char \/ c4 = "P"%char)).
Proof.
  split.
  - apply (proj2 (stop_word_characterisation
                    (String "009" ("sToP" ++ String "010" "")))).
    exists (String "009" ""), (String "010" ""),
      "s"%char, "T"%char, "o"%char, "P"%char.
    repeat split; auto.
  - intros H.
    apply (proj2 (stop_word_characterisation "stop.")) in H.
    discriminate H.
Defined.

(** ** Loading the module *)

(** X15.  The import succeeds exactly when both variables are set and
    not empty, and gives them as the credentials; the import stops with
    [ValueError] in every other case.  With credentials that passed the
    check, every [Conversation] is constructed with
    [requires_auth=True]. *)
Theorem load_module_checks_credentials getenv :
  (forall k a,
     load_module getenv = Credentials k a <->
     getenv "API_KEY" = Some k /\ getenv "AGENT_ID" = Some a /\
     k <> "" /\ a <> "") /\
  ((getenv "API_KEY" = None \/ getenv "API_KEY" = Some "" \/
    getenv "AGENT_ID" = None \/ getenv "AGENT_ID" = Some "") ->
   exists message, load_module getenv = ValueError message) /\
  (forall env h k a,
     load_module getenv = Credentials k a ->
     API_KEY env = k -> AGENT_ID env = a ->
     construction env h = NewConversation h a true).
Proof.
  assert (Hiff : forall k a,
             load_module getenv = Credentials k a <->
             getenv "API_KEY" = Some k /\ getenv "AGENT_ID" = Some a /\
             k <> "" /\ a <> "").
  { intros k a. unfold load_module.
    destruct (getenv "API_KEY") as [k'|], (getenv "AGENT_ID") as [a'|];
      simpl;
      try destruct (String.eqb_spec k' "");
      try destruct (String.eqb_spec a' ""); simpl;
      (split;
       [ intros H; try discriminate H; injection H as -> ->; auto
       | intros (H1 & H2 & H3 & H4); try discriminate H1;
         try discriminate H2; injection H1 as ->; try injection H2 as ->;
         try contradiction; reflexivity ]). }
  split; [exact Hiff|]. split.
  - intros H. unfold load_module.
    destruct H as [H|[H|[H|H]]]; rewrite H; simpl; eauto;
      destruct (py_not (getenv "API_KEY")); simpl; eauto.
  - intros env h k a H Hk Ha. apply Hiff in H.
    destruct H as (_ & _ & Hne & _). unfold construction.
    rewrite Ha, Hk. apply String.eqb_neq in Hne. now rewrite Hne.
Qed.

Lemma load_module_checks_credentials_witness :
  load_module (fun name => if String.eqb name "API_KEY" then Some "key"
                           else Some "agent")
  = Credentials "key" "agent" /\
  (exists message,
     load_module (fun name => if String.eqb name "API_KEY" then Some "key"
                              else None)
     = ValueError message) /\
  construction quiet 0 = NewConversation 0 "agent" true.
Proof.
  split; [|split].
  - apply (proj1 (load_module_checks_credentials
                    (fun name => if String.eqb name "API_KEY" then Some "key"
                                 else Some "agent"))).
    repeat split; discriminate.
  - apply (proj1 (proj2 (load_module_checks_credentials
                    (fun name => if String.eqb name "API_KEY" then Some "key"
                                 else None)))).
    right. right. left. reflexivity.
  - apply (proj2 (proj2 (load_module_checks_credentials
                    (fun name => if String.eqb name "API_KEY" then Some "key"
                                 else Some "agent")))
                 quiet 0 "key" "agent"); reflexivity.
Defined.

(** ** The page: relations that computations keep *)

Section Preserving.

Variable R : World -> World -> Prop.
Hypothesis R_refl : forall w, R w w.
Hypothesis R_trans : forall w1 w2 w3, R w1 w2 -> R w2 w3 -> R w1 w3.

Lemma preserves_ret {A} (a : A) : preserves R (ret a).
Proof. intros w. apply R_refl. Qed.

Lemma preserves_bind {A B} (m : M A) (k : A -> M B) :
  preserves R m -> (forall a, preserves R (k a)) -> preserves R (bind m k).
Proof.
  intros Hm Hk w. specialize (Hm w). unfold exec, bind in *.
  destruct (m w) as [[a|e] w']; simpl in *; [|exact Hm].
  eapply R_trans; [exact Hm | apply (Hk a w')].
Qed.

Lemma preserves_for_each {A} (body : A -> M unit) xs :
  (forall x, preserves R (body x)) -> preserves R (for_each body xs).
Proof.
  intros Hb. induction xs as [|x xs IH]; simpl.
  - apply preserves_ret.
  - apply preserves_bind; [apply Hb | intros _; exact IH].
Qed.

Lemma preservesP_ret {A} (a : A) : preservesP R (retP a).
Proof. intros p. apply R_refl. Qed.

Lemma preservesP_render e : preservesP R (render e).
Proof. intros p. apply R_refl. Qed.

Lemma preservesP_in_world {A} (m : M A) :
  preserves R m -> preservesP R (in_world m).
Proof.
  intros Hm p. specialize (Hm (world p)). unfold execP, in_world, exec in *.
  now destruct (m (world p)).
Qed.

Lemma preservesP_bind {A B} (m : MP A) (k : A -> MP B) :
  preservesP R m -> (forall a, preservesP R (k a)) ->
  preservesP R (bindP m k).
Proof.
  intros Hm Hk p. specialize (Hm p). unfold execP, bindP in *.
  destruct (m p) as [[a|e] p']; simpl in *; [|exact Hm].
  eapply R_trans; [exact Hm | apply (Hk a p')].
Qed.

End Preserving.

Lemma same_session_refl w : same_session w w.
Proof. now split. Qed.

Lemma same_session_trans w1 w2 w3 :
  same_session w1 w2 -> same_session w2 w3 -> same_session w1 w3.
Proof. intros [A1 A2] [B1 B2]. split; congruence. Qed.

Lemma gets_only_refl w : gets_only w w.
Proof. exists []. now rewrite app_nil_r. Qed.

Lemma gets_only_trans w1 w2 w3 :
  gets_only w1 w2 -> gets_only w2 w3 -> gets_only w1 w3.
Proof.
  intros (n1 & E1 & F1) (n2 & E2 & F2). exists (n1 ++ n2)%list.
  rewrite E2, E1, app_assoc. split; [reflexivity|].
  apply Forall_app. now split.
Qed.

Lemma offline_refl w : offline w w.
Proof. now split. Qed.

Lemma offline_trans w1 w2 w3 : offline w1 w2 -> offline w2 w3 -> offline w1 w3.
Proof. intros [A1 A2] [B1 B2]. split; congruence. Qed.

Lemma same_controller_session w w' : same_controller w w' -> same_session w w'.
Proof.
  intros (C & F & _ & L & _). unfold same_session, session.
  now rewrite C, F, L.
Qed.

(** What the clients leave, in full. *)
Lemma get_conversations_exec env w :
  exec (get_conversations env) w = requested (conversations_request env) w.
Proof.
  unfold get_conversations. rewrite exec_bind_pure; [reflexivity|].
  intros r. purity.
Qed.

Lemma get_messages_exec env i w :
  exec (get_messages env i) w = requested (messages_request env i) w.
Proof.
  unfold get_messages. rewrite exec_bind_pure; [reflexivity|].
  intros r. purity.
Qed.

Lemma delete_conversation_exec env i w :
  exec (delete_conversation env i) w = requested (delete_request env i) w.
Proof.
  unfold delete_conversation. rewrite exec_bind_pure; [reflexivity|].
  intros r. purity.
Qed.

Lemma get_audio_http env i w :
  http_log (exec (get_audio env i) w)
  = (http_log w ++ [audio_request env i])%list.
Proof.
  unfold get_audio, exec, bind, requests_send.
  destruct (send env (http_log w) (audio_request env i)) as [r|e];
    [|reflexivity].
  destruct (status_code r =? 200)%Z; [|reflexivity].
  unfold lift. destruct (from_mp3 env (content r)); [|reflexivity].
  unfold export. simpl.
  now destruct (export_raises env (files w) (audio_file_path i)).
Qed.

(** A computation is its outcome and the world it leaves. *)
Lemma run_eq {A} (m : M A) w : m w = (outcome m w, exec m w).
Proof. unfold outcome, exec. now destruct (m w). Qed.

Lemma in_world_run {A} (m : M A) p :
  in_world m p = (outcome m (world p), mkPage (exec m (world p)) (elements p)).
Proof. unfold in_world, outcome, exec. now destruct (m (world p)). Qed.

(** Stop and start issue no request and write no file. *)
Lemma stop_offline env : preserves offline (stop_conversation env).
Proof.
  intros w. destruct (conversation w) as [h|] eqn:E; unfold exec.
  - rewrite (stop_with_handle _ _ _ E).
    now destruct (sdk_raises env (sdk_log w) (StopSession h)).
  - now rewrite (stop_without_handle _ _ E).
Qed.

Lemma start_offline env : preserves offline (start_conversation env).
Proof.
  intros w. unfold exec. rewrite start_cases. cbv zeta.
  destruct (sdk_raises env (sdk_log w) _); [now split|].
  now destruct (sdk_raises env _ (StartSession _)).
Qed.

Lemma st_write_offline text : preserves offline (st_write text).
Proof. intros w. now split. Qed.

Lemma main_start_service_offline env button :
  preserves offline (main_start_service env button).
Proof.
  intros w. unfold exec. destruct (agent_running w) eqn:R.
  - rewrite (menu_when_running _ _ _ R). destruct (button _).
    + exact (stop_offline env (exec (st_write "**Agent is already running**") w)).
    + now split.
  - rewrite (menu_when_idle _ _ _ R). destruct (button _); [|now split].
    pose proof (start_offline env w) as H. unfold exec, bind in *.
    destruct (start_conversation env w) as [[[]|e] w']; exact H.
Qed.

Lemma offline_gets_only w w' : offline w w' -> gets_only w w'.
Proof. intros [H _]. exists []. now rewrite app_nil_r. Qed.

(** ** The menu *)

Lemma bindP_in_world {A B} (m : M A) (k : A -> MP B) p :
  bindP (in_world m) k p =
  match outcome m (world p) with
  | Ok a => k a (mkPage (exec m (world p)) (elements p))
  | Raise e => (Raise e, mkPage (exec m (world p)) (elements p))
  end.
Proof. unfold bindP. rewrite in_world_run. now destruct (outcome m (world p)). Qed.

Lemma for_each_write (f : json -> string) msgs w :
  for_each (fun m => st_write (f m)) msgs w =
  (Ok tt,
   mkWorld (conversation w) (agent_running w) (next_handle w) (sdk_log w)
           (http_log w) (page w ++ map f msgs) (files w)).
Proof.
  revert w. induction msgs as [|m msgs IH]; intros w; simpl.
  - rewrite app_nil_r. now destruct w.
  - unfold bind. simpl. rewrite IH. simpl. now rewrite <- app_assoc.
Qed.

Lemma audio_file_path_not_empty i : String.eqb (audio_file_path i) "" = false.
Proof. now destruct i. Qed.

Lemma selectbox_nonempty {A} ui label (options : list A) x :
  selectbox ui label options = Some x -> options <> [].
Proof.
  intros H ->. unfold selectbox in H.
  now destruct (chosen ui label).
Qed.

Ltac keeping R Hrefl Htrans :=
  cbv zeta;
  repeat first
    [ apply (preservesP_bind R Htrans); [| intros ? ]
    | apply (preservesP_in_world R)
    | apply (preservesP_ret R Hrefl)
    | apply (preservesP_render R Hrefl)
    | apply (preserves_for_each R Hrefl Htrans); intros ?
    | match goal with
      | |- preservesP _ (match ?x with _ => _ end) => destruct x
      end ].

Section MenuProperties.

Variable env : Env.
Variable float_repr : Z -> string.
Variables page_icon icon_banner welcome_banner : string.

Local Notation "'Main'" :=
  (main env float_repr page_icon icon_banner welcome_banner).
Local Notation "'Header'" := (header page_icon icon_banner welcome_banner).
Local Notation "'service_of' ui" := (selectbox ui "Choose a Service:" services)
  (at level 10, ui at level 9).

Lemma main_cases ui p :
  Main ui p =
  let p' := mkPage (world p) (elements p ++ Header) in
  if is_service (service_of ui) "Start the Agensense" then
    in_world (main_start_service env (pressed ui)) p'
  else if is_service (service_of ui) "Get Conversations History" then
    history_service env float_repr ui p'
  else if is_service (service_of ui) "Get Conversation Audio" then
    audio_service env float_repr ui p'
  else if is_service (service_of ui) "Delete Conversation" then
    delete_service env float_repr ui p'
  else if is_service (service_of ui) "Twillo Configuration" then
    in_world (st_write "Coming Soon...") p'
  else if is_service (service_of ui) "Send Email" then
    in_world (st_write "Coming Soon...") p'
  else if is_service (service_of ui) "Schedule Meeting" then
    in_world (st_write "Coming Soon...") p'
  else if is_service (service_of ui) "Translation" then
    in_world (st_write "Coming Soon...") p'
  else (Ok tt, p').
Proof.
  unfold main, bindP, render, header. simpl.
  rewrite <- !app_assoc. simpl.
  repeat match goal with
         | |- context [is_service ?s ?n] => destruct (is_service s n)
         end; reflexivity.
Qed.

Lemma stop_if_running_idle w :
  agent_running w = false -> stop_if_running env w = (Ok tt, w).
Proof. intros H. unfold stop_if_running. now rewrite H. Qed.

Lemma stop_if_running_running w :
  agent_running w = true -> stop_if_running env w = stop_conversation env w.
Proof. intros H. unfold stop_if_running. now rewrite H. Qed.

Lemma stop_if_running_offline : preserves offline (stop_if_running env).
Proof.
  intros w. unfold exec. destruct (agent_running w) eqn:R.
  - rewrite (stop_if_running_running _ R). apply stop_offline.
  - rewrite (stop_if_running_idle _ R). apply offline_refl.
Qed.

Lemma get_conversations_gets : preserves gets_only (get_conversations env).
Proof.
  intros w. rewrite get_conversations_exec.
  exists [conversations_request env]. split; [reflexivity|].
  now constructor.
Qed.

Lemma get_messages_gets i : preserves gets_only (get_messages env i).
Proof.
  intros w. rewrite get_messages_exec.
  exists [messages_request env i]. split; [reflexivity|]. now constructor.
Qed.

Lemma get_audio_gets i : preserves gets_only (get_audio env i).
Proof.
  intros w. exists [audio_request env i]. split; [apply get_audio_http|].
  now constructor.
Qed.

Lemma st_write_gets text : preserves gets_only (st_write text).
Proof. intros w. apply offline_gets_only, st_write_offline. Qed.

Lemma st_write_same_session text : preserves same_session (st_write text).
Proof. intros w. now split. Qed.

Lemma get_conversations_same_session :
  preserves same_session (get_conversations env).
Proof. intros w. apply same_controller_session, get_conversations_frame. Qed.

Lemma get_messages_same_session i :
  preserves same_session (get_messages env i).
Proof. intros w. apply same_controller_session, get_messages_frame. Qed.

Lemma get_audio_same_session i : preserves same_session (get_audio env i).
Proof. intros w. apply same_controller_session, get_audio_frame. Qed.

Lemma delete_conversation_same_session i :
  preserves same_session (delete_conversation env i).
Proof. intros w. apply same_controller_session, delete_conversation_frame. Qed.

Lemma stop_if_running_gets : preserves gets_only (stop_if_running env).
Proof. intros w. apply offline_gets_only, stop_if_running_offline. Qed.

Lemma history_service_gets ui :
  preservesP gets_only (history_service env float_repr ui).
Proof.
  unfold history_service, history_listing. keeping gets_only gets_only_refl gets_only_trans;
    auto using stop_if_running_gets, get_conversations_gets,
      get_messages_gets, st_write_gets.
Qed.

Lemma audio_service_gets ui :
  preservesP gets_only (audio_service env float_repr ui).
Proof.
  unfold audio_service, audio_listing. keeping gets_only gets_only_refl gets_only_trans;
    auto using stop_if_running_gets, get_conversations_gets,
      get_audio_gets, st_write_gets.
Qed.

Lemma delete_service_gets ui :
  pressed ui "Delete Conversation" = false ->
  preservesP gets_only (delete_service env float_repr ui).
Proof.
  intros Hb. unfold delete_service, delete_listing. rewrite Hb.
  keeping gets_only gets_only_refl gets_only_trans;
    auto using stop_if_running_gets, get_conversations_gets, st_write_gets.
Qed.

(** X16.  A run of [main] issues a DELETE request only when the
    service "Delete Conversation" is selected and its button pressed:
    in every other run, whatever the service answers, the requests it
    issues are all GET requests. *)
Theorem main_deletes_only_on_request ui p :
  is_service (service_of ui) "Delete Conversation"
  && pressed ui "Delete Conversation" = false ->
  gets_only (world p) (world (execP (Main ui) p)).
Proof.
  intros H. unfold execP. rewrite main_cases. cbv zeta.
  set (p' := mkPage (world p) (elements p ++ Header)).
  change (world p) with (world p').
  destruct (is_service (service_of ui) "Start the Agensense").
  { apply (preservesP_in_world gets_only). intros w.
    apply offline_gets_only, main_start_service_offline. }
  destruct (is_service (service_of ui) "Get Conversations History").
  { apply history_service_gets. }
  destruct (is_service (service_of ui) "Get Conversation Audio").
  { apply audio_service_gets. }
  destruct (is_service (service_of ui) "Delete Conversation").
  { apply delete_service_gets. exact H. }
  repeat match goal with
         | |- context [is_service ?s ?n] => destruct (is_service s n)
         end;
    try (apply (preservesP_in_world gets_only), st_write_gets);
    apply gets_only_refl.
Qed.

End MenuProperties.

(** X16 on the service "Translation" and on the history of a service
    that has two conversations. *)
Lemma main_deletes_only_on_request_witness :
  gets_only (initial_world [])
    (world (execP (main quiet (fun _ => "0.0") "icon" "b1" "b2" (choosing 8))
                  (mkPage (initial_world []) []))) /\
  gets_only (initial_world [])
    (world (execP (main (answering_list (ok_json two_conversations)
                                        (ok_json hi_bye))
                        (fun _ => "0.0") "icon" "b1" "b2"
                        (choosing_and_pressing 2))
                  (mkPage (initial_world []) []))).
Proof.
  split.
  - exact (main_deletes_only_on_request quiet (fun _ => "0.0") "icon" "b1" "b2"
             (choosing 8) (mkPage (initial_world []) []) eq_refl).
  - exact (main_deletes_only_on_request
             (answering_list (ok_json two_conversations) (ok_json hi_bye))
             (fun _ => "0.0") "icon" "b1" "b2" (choosing_and_pressing 2)
             (mkPage (initial_world []) []) eq_refl).
Defined.

Section MenuRuns.

Variable env : Env.
Variable float_repr : Z -> string.
Variables page_icon icon_banner welcome_banner : string.

Local Notation "'Main'" :=
  (main env float_repr page_icon icon_banner welcome_banner).
Local Notation "'Header'" := (header page_icon icon_banner welcome_banner).
Local Notation "'service_of' ui" := (selectbox ui "Choose a Service:" services)
  (at level 10, ui at level 9).

Ltac pick_service H :=
  rewrite main_cases; cbv zeta; rewrite H; simpl is_service; cbv iota.

(** While the session is Idle the three services that browse the
    conversations go straight to the listing. *)
Lemma idle_first {B} (k : unit -> MP B) p :
  agent_running (world p) = false ->
  bindP (in_world (stop_if_running env)) k p = k tt p.
Proof.
  intros H. rewrite bindP_in_world. unfold outcome, exec.
  rewrite (stop_if_running_idle _ _ H). simpl. now destruct p.
Qed.

(** While it is Running they stop it first. *)
Lemma stop_first {B} (k : unit -> MP B) p h :
  (forall u, preservesP same_session (k u)) ->
  agent_running (world p) = true ->
  conversation (world p) = Some h ->
  sdk_log (world (execP (bindP (in_world (stop_if_running env)) k) p))
  = (sdk_log (world p) ++ [StopSession h])%list /\
  conversation (world (execP (bindP (in_world (stop_if_running env)) k) p))
  = Some h /\
  (sdk_raises env (sdk_log (world p)) (StopSession h) = None ->
   agent_running
     (world (execP (bindP (in_world (stop_if_running env)) k) p)) = false) /\
  (forall e,
     sdk_raises env (sdk_log (world p)) (StopSession h) = Some e ->
     outcomeP (bindP (in_world (stop_if_running env)) k) p = Raise e /\
     offline (world p)
             (world (execP (bindP (in_world (stop_if_running env)) k) p)) /\
     agent_running
       (world (execP (bindP (in_world (stop_if_running env)) k) p)) = true).
Proof.
  intros Hk R E. unfold execP, outcomeP. rewrite bindP_in_world.
  unfold outcome, exec.
  rewrite (stop_if_running_running _ _ R), (stop_with_handle _ _ _ E).
  destruct (sdk_raises env (sdk_log (world p)) (StopSession h)) as [e|];
    simpl.
  - split; [reflexivity|]. split; [reflexivity|]. split; [discriminate|].
    intros e' H. injection H as <-. repeat split; auto.
  - match goal with
    | |- context [k tt ?q] =>
        destruct (Hk tt q) as [Hs Hl]; unfold execP, session in *;
          simpl in *; injection Hs as Hc Hf
    end.
    split; [exact Hl|]. split; [exact Hc|]. split; [intros _; exact Hf|].
    discriminate.
Qed.

Lemma history_listing_same_session ui :
  preservesP same_session (history_listing env float_repr ui).
Proof.
  unfold history_listing.
  keeping same_session same_session_refl same_session_trans;
    auto using get_conversations_same_session, get_messages_same_session,
      st_write_same_session.
Qed.

Lemma audio_listing_same_session ui :
  preservesP same_session (audio_listing env float_repr ui).
Proof.
  unfold audio_listing.
  keeping same_session same_session_refl same_session_trans;
    auto using get_conversations_same_session, get_audio_same_session,
      st_write_same_session.
Qed.

Lemma delete_listing_same_session ui :
  preservesP same_session (delete_listing env float_repr ui).
Proof.
  unfold delete_listing.
  keeping same_session same_session_refl same_session_trans;
    auto using get_conversations_same_session,
      delete_conversation_same_session, st_write_same_session.
Qed.

(** X17.  Browsing ends a running session.  When one of the services
    "Get Conversations History", "Get Conversation Audio" and "Delete
    Conversation" is selected while the flag is set and a handle bound,
    [main] first calls [stop_session] on that handle, and makes no other
    SDK call: if the call returns the run ends Idle, whatever the remote
    service answers afterwards; if it raises, [main] raises the same
    exception before any request is issued.  Selected while Idle, these
    services leave the session and the SDK alone. *)
Theorem browsing_stops_running_session ui p name :
  service_of ui = Some name ->
  In name ["Get Conversations History"; "Get Conversation Audio";
           "Delete Conversation"] ->
  (Idle (world p) -> same_session (world p) (world (execP (Main ui) p))) /\
  (forall h,
     Running (world p) -> conversation (world p) = Some h ->
     sdk_log (world (execP (Main ui) p))
     = (sdk_log (world p) ++ [StopSession h])%list /\
     conversation (world (execP (Main ui) p)) = Some h /\
     (sdk_raises env (sdk_log (world p)) (StopSession h) = None ->
      Idle (world (execP (Main ui) p))) /\
     (forall e,
        sdk_raises env (sdk_log (world p)) (StopSession h) = Some e ->
        outcomeP (Main ui) p = Raise e /\
        offline (world p) (world (execP (Main ui) p)) /\
        Running (world (execP (Main ui) p)))).
Proof.
  intros Hsel Hin. unfold Idle, Running, execP, outcomeP.
  set (p' := mkPage (world p) (elements p ++ Header)).
  assert (Hw : world p = world p') by reflexivity.
  destruct Hin as [<-|[<-|[<-|[]]]]; pick_service Hsel; fold p'; rewrite Hw.
  - split.
    + intros I. unfold history_service. rewrite (idle_first _ _ I).
      apply history_listing_same_session.
    + intros h R E.
      apply (stop_first (fun _ => history_listing env float_repr ui) p' h);
        auto using history_listing_same_session.
  - split.
    + intros I. unfold audio_service. rewrite (idle_first _ _ I).
      apply audio_listing_same_session.
    + intros h R E.
      apply (stop_first (fun _ => audio_listing env float_repr ui) p' h);
        auto using audio_listing_same_session.
  - split.
    + intros I. unfold delete_service. rewrite (idle_first _ _ I).
      apply delete_listing_same_session.
    + intros h R E.
      apply (stop_first (fun _ => delete_listing env float_repr ui) p' h);
        auto using delete_listing_same_session.
Qed.

End MenuRuns.

(** X17: the history is opened while a session runs. *)
Lemma browsing_stops_running_session_witness :
  Running started_world /\
  sdk_log (world (execP (main (answering_list (ok_json two_conversations)
                                              (ok_json hi_bye))
                              (fun _ => "0.0") "icon" "b1" "b2" (choosing 2))
                        (mkPage started_world [])))
  = [NewConversation 0 "agent" true; StartSession 0; StopSession 0] /\
  Idle (world (execP (main (answering_list (ok_json two_conversations)
                                           (ok_json hi_bye))
                           (fun _ => "0.0") "icon" "b1" "b2" (choosing 2))
                     (mkPage started_world []))).
Proof.
  destruct (browsing_stops_running_session
              (answering_list (ok_json two_conversations) (ok_json hi_bye))
              (fun _ => "0.0") "icon" "b1" "b2" (choosing 2)
              (mkPage started_world []) "Get Conversations History"
              eq_refl (or_introl eq_refl)) as [_ H].
  destruct (H 0 eq_refl eq_refl) as (L & _ & I & _).
  split; [reflexivity|]. split; [exact L | exact (I eq_refl)].
Defined.

Ltac pick H :=
  rewrite main_cases; cbv zeta; rewrite H; simpl is_service; cbv iota.

Ltac open_listing Hsel Hidle Hlist :=
  pick Hsel;
  first [ progress unfold history_service | progress unfold audio_service
        | progress unfold delete_service ];
  rewrite idle_first by exact Hidle;
  first [ progress unfold history_listing | progress unfold audio_listing
        | progress unfold delete_listing ];
  rewrite bindP_in_world; cbn [world elements];
  rewrite Hlist, get_conversations_exec.

Section MenuOutcomes.

Variable env : Env.
Variable float_repr : Z -> string.
Variables page_icon icon_banner welcome_banner : string.

Local Notation "'Main'" :=
  (main env float_repr page_icon icon_banner welcome_banner).
Local Notation "'Header'" := (header page_icon icon_banner welcome_banner).
Local Notation "'service_of' ui" := (selectbox ui "Choose a Service:" services)
  (at level 10, ui at level 9).
Local Notation "'listed' w" := (requested (conversations_request env) w)
  (at level 10, w at level 9).

(** X18.  A listing that failed looks like an empty one.  Selected
    while Idle, each of the three browsing services writes "No
    conversations found!" and returns, having issued the one list
    request, when the listing is empty, and equally when the list
    request has a non-success status. *)
Theorem no_conversations_found ui p name :
  service_of ui = Some name ->
  In name ["Get Conversations History"; "Get Conversation Audio";
           "Delete Conversation"] ->
  Idle (world p) ->
  (outcome (get_conversations env) (world p) = Ok [] \/
   exists r, send env (http_log (world p)) (conversations_request env) = Ok r
             /\ non_success r) ->
  Main ui p =
  (Ok tt,
   mkPage (exec (st_write "No conversations found!") (listed (world p)))
          (elements p ++ Header)).
Proof.
  intros Hsel Hin Hidle Hl.
  assert (Hlist : outcome (get_conversations env) (world p) = Ok []).
  { destruct Hl as [Hl|(r & Hs & Hn)]; [exact Hl|].
    now rewrite (get_conversations_of_response _ _ _ Hs),
      (status_non_success _ Hn). }
  destruct Hin as [<-|[<-|[<-|[]]]]; open_listing Hsel Hidle Hlist;
    reflexivity.
Qed.

Lemma delete_conversation_of_response i w r :
  send env (http_log w) (delete_request env i) = Ok r ->
  outcome (delete_conversation env i) w
  = Ok (if (status_code r =? 200)%Z then deleted_message
        else not_deleted_message).
Proof.
  intros Hs. unfold delete_conversation, outcome, bind, requests_send.
  rewrite Hs. now destruct (status_code r =? 200)%Z.
Qed.

(** X19.  The outcome of a delete is shown as a success either way.
    With the service "Delete Conversation" selected while Idle, a
    conversation selected and the button pressed, [main] issues the
    list request and one DELETE for the selected conversation, and puts
    the string [delete_conversation] returns in a success box: the
    failure message too, when the status is not 200. *)
Theorem delete_outcome_shown_as_success ui p ids sel r :
  service_of ui = Some "Delete Conversation" ->
  Idle (world p) ->
  outcome (get_conversations env) (world p) = Ok ids ->
  selectbox ui "Select a Conversation ID to Delete:" ids = Some sel ->
  PyText.truthy sel = true ->
  pressed ui "Delete Conversation" = true ->
  send env (http_log (world p) ++ [conversations_request env])
       (delete_request env (fmt float_repr sel)) = Ok r ->
  Main ui p =
  (Ok tt,
   mkPage (requested (delete_request env (fmt float_repr sel))
                     (listed (world p)))
          (elements p ++ Header
           ++ [SuccessBox (if (status_code r =? 200)%Z then deleted_message
                           else not_deleted_message)])).
Proof.
  intros Hsel Hidle Hlist Hbox Ht Hb Hs.
  open_listing Hsel Hidle Hlist.
  destruct ids as [|j ids]; [now apply selectbox_nonempty in Hbox|].
  cbv zeta. rewrite Hbox, Hb. unfold truthy_choice. rewrite Ht.
  rewrite bindP_in_world. cbn [world elements].
  rewrite (delete_conversation_of_response _ (listed (world p)) r Hs),
    delete_conversation_exec.
  unfold render. cbn [world elements]. now rewrite <- app_assoc.
Qed.

(** X20.  A selected identifier that is false in an [if] (null, an
    empty string, zero) is skipped: the history and the audio services
    issue no request for it and show nothing, and the delete service,
    its button pressed, issues no DELETE and reports that no
    conversation is selected. *)
Theorem falsy_selection_is_skipped ui p ids sel :
  Idle (world p) ->
  outcome (get_conversations env) (world p) = Ok ids ->
  PyText.truthy sel = false ->
  (service_of ui = Some "Get Conversations History" ->
   selectbox ui "Select a Conversation ID:" ids = Some sel ->
   Main ui p = (Ok tt, mkPage (listed (world p)) (elements p ++ Header))) /\
  (service_of ui = Some "Get Conversation Audio" ->
   selectbox ui "Select a Conversation ID for Audio:" ids = Some sel ->
   Main ui p = (Ok tt, mkPage (listed (world p)) (elements p ++ Header))) /\
  (service_of ui = Some "Delete Conversation" ->
   selectbox ui "Select a Conversation ID to Delete:" ids = Some sel ->
   pressed ui "Delete Conversation" = true ->
   Main ui p =
   (Ok tt,
    mkPage (listed (world p))
           (elements p ++ Header ++ [ErrorBox "No Conversation ID selected."]))).
Proof.
  intros Hidle Hlist Ht. split; [|split].
  - intros Hsel Hbox. open_listing Hsel Hidle Hlist.
    destruct ids as [|j ids]; [now apply selectbox_nonempty in Hbox|].
    cbv zeta. now rewrite Hbox, Ht.
  - intros Hsel Hbox. open_listing Hsel Hidle Hlist.
    destruct ids as [|j ids]; [now apply selectbox_nonempty in Hbox|].
    cbv zeta. now rewrite Hbox, Ht.
  - intros Hsel Hbox Hb. open_listing Hsel Hidle Hlist.
    destruct ids as [|j ids]; [now apply selectbox_nonempty in Hbox|].
    cbv zeta. rewrite Hbox, Hb. unfold truthy_choice. rewrite Ht.
    unfold render. cbn [world elements]. now rewrite <- app_assoc.
Qed.

(** X21.  What the history shows.  With the service "Get Conversations
    History" selected while Idle and a conversation selected, [main]
    issues the list request and one request for the transcript of the
    selected conversation, shows a heading with its identifier, and
    writes one line per element of what [get_messages] returns, in
    order: its placeholders are written like messages. *)
Theorem history_shows_messages ui p ids sel msgs :
  service_of ui = Some "Get Conversations History" ->
  Idle (world p) ->
  outcome (get_conversations env) (world p) = Ok ids ->
  selectbox ui "Select a Conversation ID:" ids = Some sel ->
  PyText.truthy sel = true ->
  outcome (get_messages env (fmt float_repr sel)) (listed (world p))
  = Ok msgs ->
  Main ui p =
  (Ok tt,
   mkPage (mkWorld (conversation (world p)) (agent_running (world p))
                   (next_handle (world p)) (sdk_log (world p))
                   (http_log (world p)
                    ++ [conversations_request env;
                        messages_request env (fmt float_repr sel)])
                   (page (world p)
                    ++ map (fun m => "- " ++ fmt float_repr m) msgs)
                   (files (world p)))
          (elements p ++ Header
           ++ [Markdown ("### Messages for Conversation ID: "
                         ++ fmt float_repr sel) false])).
Proof.
  intros Hsel Hidle Hlist Hbox Ht Hm.
  open_listing Hsel Hidle Hlist.
  destruct ids as [|j ids]; [now apply selectbox_nonempty in Hbox|].
  cbv zeta. rewrite Hbox, Ht.
  rewrite bindP_in_world. cbn [world elements].
  rewrite Hm, get_messages_exec.
  unfold bindP, render, in_world. cbn [world elements].
  rewrite (for_each_write (fun m => "- " ++ fmt float_repr m)).
  unfold requested. simpl. now rewrite <- !app_assoc.
Qed.

(** X22.  What the audio service shows.  With the service "Get
    Conversation Audio" selected while Idle and a conversation
    selected: on a non-success status of the audio request, an error
    box and no file; on a 200 response that decodes, the WAV file named
    after the conversation and an audio player on that file when the
    working directory lets the file be opened, and otherwise the
    exception of [audio.export], with nothing shown and no file. *)
Theorem audio_service_outcome ui p ids sel r :
  service_of ui = Some "Get Conversation Audio" ->
  Idle (world p) ->
  outcome (get_conversations env) (world p) = Ok ids ->
  selectbox ui "Select a Conversation ID for Audio:" ids = Some sel ->
  PyText.truthy sel = true ->
  send env (http_log (world p) ++ [conversations_request env])
       (audio_request env (fmt float_repr sel)) = Ok r ->
  (non_success r ->
   Main ui p =
   (Ok tt,
    mkPage (requested (audio_request env (fmt float_repr sel))
                      (listed (world p)))
           (elements p ++ Header
            ++ [ErrorBox "Failed to retrieve audio. Please try again."]))) /\
  (forall audio,
     status_code r = 200%Z ->
     from_mp3 env (content r) = Ok audio ->
     (export_raises env (files (world p))
                    (audio_file_path (fmt float_repr sel)) = None ->
      Main ui p =
      (Ok tt,
       mkPage (exec (write_file (audio_file_path (fmt float_repr sel))
                                (to_wav env audio))
                    (requested (audio_request env (fmt float_repr sel))
                               (listed (world p))))
              (elements p ++ Header
               ++ [Audio (fmt float_repr sel ++ "_audio.wav") "audio/wav"]))) /\
     (forall e,
        export_raises env (files (world p))
                      (audio_file_path (fmt float_repr sel)) = Some e ->
        Main ui p =
        (Raise e,
         mkPage (requested (audio_request env (fmt float_repr sel))
                           (listed (world p)))
                (elements p ++ Header)))).
Proof.
  intros Hsel Hidle Hlist Hbox Ht Hs.
  assert (Hopen : Main ui p =
                  bindP (in_world (get_audio env (fmt float_repr sel)))
                        (fun audio_file_path =>
                           match audio_file_path with
                           | Some path =>
                               if negb (String.eqb path "")
                               then render (Audio path "audio/wav")
                               else render
                                      (ErrorBox
                                         "Failed to retrieve audio. Please try again.")
                           | None =>
                               render
                                 (ErrorBox
                                    "Failed to retrieve audio. Please try again.")
                           end)
                        (mkPage (listed (world p)) (elements p ++ Header))).
  { open_listing Hsel Hidle Hlist.
    destruct ids as [|j ids]; [now apply selectbox_nonempty in Hbox|].
    cbv zeta. now rewrite Hbox, Ht. }
  rewrite Hopen. unfold bindP. rewrite in_world_run. unfold outcome, exec.
  cbn [world elements].
  rewrite (get_audio_of_response _ _ (listed (world p)) r Hs).
  change (files (listed (world p))) with (files (world p)).
  split.
  - intros Hn. rewrite (status_non_success _ Hn). unfold render.
    cbn [fst snd world elements]. now rewrite <- app_assoc.
  - intros audio H200 Hd. rewrite (status_success _ H200), Hd. split.
    + intros He. rewrite He.
      cbn [fst snd]. rewrite audio_file_path_not_empty. unfold render.
      cbn [negb world elements]. now rewrite <- app_assoc.
    + intros e He. now rewrite He.
Qed.

End MenuOutcomes.

(** X18 on a service that answers 404 to everything. *)
Lemma no_conversations_found_witness :
  main quiet (fun _ => "0.0") "icon" "b1" "b2" (choosing_and_pressing 4)
       (mkPage (initial_world []) [])
  = (Ok tt,
     mkPage (mkWorld None false 0 [] [conversations_request quiet]
                     ["No conversations found!"] [])
            (header "icon" "b1" "b2")).
Proof.
  apply (no_conversations_found quiet (fun _ => "0.0") "icon" "b1" "b2"
           (choosing_and_pressing 4) (mkPage (initial_world []) [])
           "Delete Conversation" eq_refl).
  - right. right. left. reflexivity.
  - reflexivity.
  - right. exists not_found. split; [reflexivity | discriminate].
Defined.

(** X19: the remote service refuses the delete with a 403. *)
Lemma delete_outcome_shown_as_success_witness :
  main (answering_list (ok_json two_conversations) forbidden)
       (fun _ => "0.0") "icon" "b1" "b2" (choosing_and_pressing 4)
       (mkPage (initial_world []) [])
  = (Ok tt,
     mkPage (requested
               (delete_request
                  (answering_list (ok_json two_conversations) forbidden) "a1")
               (requested
                  (conversations_request
                     (answering_list (ok_json two_conversations) forbidden))
                  (initial_world [])))
            (header "icon" "b1" "b2"
             ++ [SuccessBox "Failed to delete the conversation."])).
Proof.
  exact (delete_outcome_shown_as_success
           (answering_list (ok_json two_conversations) forbidden)
           (fun _ => "0.0") "icon" "b1" "b2" (choosing_and_pressing 4)
           (mkPage (initial_world []) []) [JStr "a1"; JStr "b2"] (JStr "a1")
           forbidden eq_refl eq_refl eq_refl eq_refl eq_refl eq_refl eq_refl).
Defined.

(** X20: the only conversation listed has a null identifier, and the
    delete button is pressed. *)
Lemma falsy_selection_is_skipped_witness :
  main (answering_list
          (ok_json (JDict [("conversations",
                            JList [JDict [("conversation_id", JNull)]])]))
          forbidden)
       (fun _ => "0.0") "icon" "b1" "b2" (choosing_and_pressing 4)
       (mkPage (initial_world []) [])
  = (Ok tt,
     mkPage (mkWorld None false 0 []
                     [mkRequest GET conversations_url [("xi-api-key", "key")]
                                [("agent_id", "agent")]]
                     [] [])
            (header "icon" "b1" "b2"
             ++ [ErrorBox "No Conversation ID selected."])).
Proof.
  exact (proj2 (proj2 (falsy_selection_is_skipped
                         (answering_list
                            (ok_json
                               (JDict [("conversations",
                                        JList [JDict [("conversation_id",
                                                       JNull)]])]))
                            forbidden)
                         (fun _ => "0.0") "icon" "b1" "b2"
                         (choosing_and_pressing 4)
                         (mkPage (initial_world []) []) [JNull] JNull
                         eq_refl eq_refl eq_refl))
               eq_refl eq_refl eq_refl).
Defined.

(** X21: the transcript request is answered with a 404, and the page
    shows the placeholder as a message. *)
Lemma history_shows_messages_witness :
  page (world (execP (main (answering_list (ok_json two_conversations)
                                           not_found)
                           (fun _ => "0.0") "icon" "b1" "b2" (choosing 2))
                     (mkPage (initial_world []) [])))
  = ["- Failed to fetch messages."] /\
  elements (execP (main (answering_list (ok_json two_conversations) not_found)
                        (fun _ => "0.0") "icon" "b1" "b2" (choosing 2))
                  (mkPage (initial_world []) []))
  = (header "icon" "b1" "b2"
     ++ [Markdown "### Messages for Conversation ID: a1" false])%list.
Proof.
  unfold execP.
  rewrite (history_shows_messages
             (answering_list (ok_json two_conversations) not_found)
             (fun _ => "0.0") "icon" "b1" "b2" (choosing 2)
             (mkPage (initial_world []) []) [JStr "a1"; JStr "b2"] (JStr "a1")
             [JStr fetch_failed] eq_refl eq_refl eq_refl eq_refl eq_refl
             eq_refl).
  split; reflexivity.
Defined.

(** X22: the audio request is answered with a 404, and with the
    recording. *)
Lemma audio_service_outcome_witness :
  elements (execP (main (answering_list (ok_json two_conversations) not_found)
                        (fun _ => "0.0") "icon" "b1" "b2" (choosing 3))
                  (mkPage (initial_world []) []))
  = (header "icon" "b1" "b2"
     ++ [ErrorBox "Failed to retrieve audio. Please try again."])%list /\
  elements (execP (main (answering_list (ok_json two_conversations)
                                        a_recording)
                        (fun _ => "0.0") "icon" "b1" "b2" (choosing 3))
                  (mkPage (initial_world []) []))
  = (header "icon" "b1" "b2" ++ [Audio "a1_audio.wav" "audio/wav"])%list /\
  files (world (execP (main (answering_list (ok_json two_conversations)
                                            a_recording)
                            (fun _ => "0.0") "icon" "b1" "b2" (choosing 3))
                      (mkPage (initial_world []) [])))
  = [("a1_audio.wav", encode_wav samples)].
Proof.
  unfold execP.
  assert (Hn : non_success not_found) by discriminate.
  rewrite (proj1 (audio_service_outcome
                    (answering_list (ok_json two_conversations) not_found)
                    (fun _ => "0.0") "icon" "b1" "b2" (choosing 3)
                    (mkPage (initial_world []) []) [JStr "a1"; JStr "b2"]
                    (JStr "a1") not_found
                    eq_refl eq_refl eq_refl eq_refl eq_refl eq_refl) Hn).
  rewrite (proj1 (proj2 (audio_service_outcome
                    (answering_list (ok_json two_conversations) a_recording)
                    (fun _ => "0.0") "icon" "b1" "b2" (choosing 3)
                    (mkPage (initial_world []) []) [JStr "a1"; JStr "b2"]
                    (JStr "a1") a_recording
                    eq_refl eq_refl eq_refl eq_refl eq_refl eq_refl)
                 samples eq_refl eq_refl) eq_refl).
  repeat split.
Defined.
